(** * Hospital command center: admission and discharge workflows

    A shallow embedding of the state transitions of [App.tsx]
    ([getInitialState], [createNotification], [handleAdmitPatient],
    [handleDischargePatient]) over the records of [types.ts], followed by
    the properties of the resource-assignment workflow.

    Conventions of the embedding.
    - A TypeScript [number] that the program uses as a count, a capacity,
      an age or a clock reading is an integer of [Z]; a [string] is a
      [string], and [toLowerCase] acts on the letters A to Z (no other
      character lower-cases to a letter of the word nurse).
    - The React state of [App] and the browser's [localStorage] are the
      fields of one record, [World]; every handler is a function from a
      world to a world.  A handler runs to completion before the next one
      starts (the loading overlay covers the page while the resolver call
      is outstanding), so the values captured by the handler's closure and
      the values seen by its functional state updates coincide.  The
      effect that persists the configuration fires on changes of the
      sections, the staff or the view, none of which the two workflows
      change, so it is left out.
    - [handleAdmitPatient] suspends once, on the resolver call
      ([assignPatient], a remote completion service).  Its embedding
      returns either a finished world or the request together with the
      continuation that consumes the resolver's outcome; the outcome is
      whatever the promise settles with.
    - A text held by [localStorage] is represented by what [JSON.parse]
      makes of it, so [JSON.parse (JSON.stringify v)] is [v] by
      construction.  Messages written to the console are not recorded.
    - Clock readings and fresh identifiers are inputs of the handlers. *)

From Stdlib Require Import ZArith List Bool Ascii String Lia.
From stdpp Require Import base option gmap strings list pretty.

Local Set Warnings "-register-all".
Local Open Scope Z_scope.
Local Open Scope string_scope.
Local Open Scope list_scope.

(** ** Domain model ([types.ts]) *)

Module Equipment.
Record t := mk { id : string; name : string; total : Z; available : Z }.
End Equipment.

Module Section.
Record t := mk
  { id : string; name : string; capacity : Z; equipment : list Equipment.t }.
End Section.

Module StaffMember.
Record t := mk { id : string; name : string; role : string }.
End StaffMember.

Module PatientAdmissionData.
Record t := mk
  { name : string; age : Z; symptoms : string; seriousness : Z }.
End PatientAdmissionData.

Module Patient.
Record t := mk
  { name : string; age : Z; symptoms : string; seriousness : Z;
    id : string;
    assignedSectionId : string;
    assignedDoctorId : string;
    assignedNurseId : string;
    admissionDate : string;
    dischargeDate : option string }.

(** [{ ...p, dischargeDate: d }] *)
Definition withDischargeDate (p : t) (d : string) : t :=
  {| name := name p; age := age p; symptoms := symptoms p;
     seriousness := seriousness p; id := id p;
     assignedSectionId := assignedSectionId p;
     assignedDoctorId := assignedDoctorId p;
     assignedNurseId := assignedNurseId p;
     admissionDate := admissionDate p;
     dischargeDate := Some d |}.
End Patient.

(** The resolver's answer as it arrives at run time: any of the fields may
    be missing ([None] is JavaScript's [undefined]). *)
Module AssignmentResponse.
Record t := mk
  { sectionId : option string; doctorId : option string;
    nurseId : option string; reasoning : option string }.
End AssignmentResponse.

Module Notification.
Record t := mk
  { id : string; patientName : string; patientSymptoms : string;
    message : string; timestamp : string }.
End Notification.

(** ** JSON values and the persisted store *)

Inductive Json :=
| JNull
| JBool (b : bool)
| JNumber (z : Z)
| JString (s : string)
| JArray (items : list Json)
| JObject (fields : list (string * Json)).

(** JavaScript truthiness of a parsed value. *)
Definition truthy (v : Json) : bool :=
  match v with
  | JNull => false
  | JBool b => b
  | JNumber z => negb (z =? 0)%Z
  | JString s => negb (s =? EmptyString)
  | JArray _ | JObject _ => true
  end.

(** Property read [v.k] on a parsed value, for a key [k] that is neither
    an index nor a built-in property; [None] is [undefined] and [inl tt]
    is the [TypeError] of reading a property of [null].  When a key is
    repeated in an object, [JSON.parse] keeps the last occurrence. *)
Definition getProp (k : string) (v : Json) : unit + option Json :=
  match v with
  | JNull => inl tt
  | JObject fields =>
      inr (snd <$> List.find (fun kv => fst kv =? k) (rev fields))
  | _ => inr None
  end.

(** [x || []] *)
Definition orEmptyArray (x : option Json) : Json :=
  match x with
  | Some v => if truthy v then v else JArray []
  | None => JArray []
  end.

(** A text of the store: the empty string, a text that [JSON.parse]
    rejects, or the serialisation of a JSON value. *)
Inductive Text :=
| EmptyText
| Malformed
| Stringified (v : Json).

Definition JSON_parse (t : Text) : option Json :=
  match t with Stringified v => Some v | _ => None end.

(** Truthiness of the result of [localStorage.getItem]: [null] and the
    empty string are falsy. *)
Definition present (x : option Text) : bool :=
  match x with
  | None | Some EmptyText => false
  | Some _ => true
  end.

Module Notification_json.
Definition encode (n : Notification.t) : Json :=
  JObject [ ("id", JString (Notification.id n));
            ("patientName", JString (Notification.patientName n));
            ("patientSymptoms", JString (Notification.patientSymptoms n));
            ("message", JString (Notification.message n));
            ("timestamp", JString (Notification.timestamp n)) ].
End Notification_json.

(** ** Application state *)

Inductive AppState := setup | dashboard | discharged | edit_setup.

Inductive ToastKind := toast_error | toast_success | toast_info.

Record Toast := { kind : ToastKind; text : string }.

Record World := mkWorld
  { sections : list Section.t;
    staff : list StaffMember.t;
    admittedPatients : list Patient.t;
    dischargedPatients : list Patient.t;
    appState : AppState;
    isAdmissionModalOpen : bool;
    isLoading : bool;
    localStorage : gmap string Text;
    toasts : list Toast }.

Definition setAdmittedPatients (f : list Patient.t -> list Patient.t) (w : World) : World :=
  mkWorld (sections w) (staff w) (f (admittedPatients w)) (dischargedPatients w)
          (appState w) (isAdmissionModalOpen w) (isLoading w)
          (localStorage w) (toasts w).

Definition setDischargedPatients (f : list Patient.t -> list Patient.t) (w : World) : World :=
  mkWorld (sections w) (staff w) (admittedPatients w) (f (dischargedPatients w))
          (appState w) (isAdmissionModalOpen w) (isLoading w)
          (localStorage w) (toasts w).

Definition setIsAdmissionModalOpen (b : bool) (w : World) : World :=
  mkWorld (sections w) (staff w) (admittedPatients w) (dischargedPatients w)
          (appState w) b (isLoading w) (localStorage w) (toasts w).

Definition setIsLoading (b : bool) (w : World) : World :=
  mkWorld (sections w) (staff w) (admittedPatients w) (dischargedPatients w)
          (appState w) (isAdmissionModalOpen w) b (localStorage w) (toasts w).

Definition setLocalStorage (m : gmap string Text) (w : World) : World :=
  mkWorld (sections w) (staff w) (admittedPatients w) (dischargedPatients w)
          (appState w) (isAdmissionModalOpen w) (isLoading w) m (toasts w).

Definition toast (k : ToastKind) (msg : string) (w : World) : World :=
  mkWorld (sections w) (staff w) (admittedPatients w) (dischargedPatients w)
          (appState w) (isAdmissionModalOpen w) (isLoading w)
          (localStorage w) (toasts w ++ [ {| kind := k; text := msg |} ]).

(** ** [getInitialState] *)

Record InitialState :=
  { init_sections : Json; init_staff : Json; isInitialSetup : bool }.

(** The body of the [try] block: [inl tt] is an exception, [inr None]
    falls through to the statement after the [try]. *)
Definition getInitialState_try (store : gmap string Text)
  : unit + option InitialState :=
  let savedState := store !! "hospital_config" in
  if present savedState then
    match savedState ≫= JSON_parse with
    | None => inl tt
    | Some parsed =>
        match getProp "sections" parsed, getProp "staff" parsed with
        | inr sections, inr staff =>
            inr (Some {| init_sections := orEmptyArray sections;
                         init_staff := orEmptyArray staff;
                         isInitialSetup := false |})
        | _, _ => inl tt
        end
    end
  else inr None.

Definition getInitialState (store : gmap string Text) : InitialState :=
  match getInitialState_try store with
  | inr (Some r) => r
  | inr None | inl _ =>
      {| init_sections := JArray []; init_staff := JArray [];
         isInitialSetup := true |}
  end.

(** ** [createNotification] *)

(** What one call of [createNotification] reads from its environment:
    [crypto.randomUUID()], [new Date().toISOString()], and whether
    [localStorage.setItem] accepts the write (it throws when the quota is
    exceeded). *)
Record NotifyEnv :=
  { randomUUID : string; notifiedAt : string; setItem_accepts : bool }.

(** [allNotifications.push(x)]: only an array has a [push] method. *)
Definition push (x : Json) (v : Json) : option Json :=
  match v with
  | JArray items => Some (JArray (items ++ [x]))
  | _ => None
  end.

Definition setItem (env : NotifyEnv) (key : string) (t : Text)
    (store : gmap string Text) : option (gmap string Text) :=
  if setItem_accepts env then Some (<[key := t]> store) else None.

Definition notificationKey (staffId : string) : string :=
  "hospital_notifications_" ++ staffId.

Definition newNotification (env : NotifyEnv) (patient : Patient.t) : Notification.t :=
  {| Notification.id := "notif_" ++ randomUUID env;
     Notification.patientName := Patient.name patient;
     Notification.patientSymptoms := Patient.symptoms patient;
     Notification.message :=
       "You have been assigned a new patient: " ++ Patient.name patient
         ++ " (Age: " ++ pretty (Patient.age patient) ++ ")";
     Notification.timestamp := notifiedAt env |}.

(** The [try] block; [None] is an exception. *)
Definition createNotification_try (env : NotifyEnv) (staffId : string)
    (patient : Patient.t) (store : gmap string Text)
  : option (gmap string Text) :=
  let key := notificationKey staffId in
  let notification := newNotification env patient in
  let existing := store !! key in
  allNotifications ←
    (if present existing then existing ≫= JSON_parse else Some (JArray []));
  pushed ← push (Notification_json.encode notification) allNotifications;
  setItem env key (Stringified pushed) store.

(** The [catch] block only writes to the console. *)
Definition createNotification (env : NotifyEnv) (staffId : string)
    (patient : Patient.t) (w : World) : World :=
  match createNotification_try env staffId patient (localStorage w) with
  | Some store => setLocalStorage store w
  | None => w
  end.

(** ** [handleAdmitPatient] *)

Definition toLowerCase_ascii (c : ascii) : ascii :=
  let n := nat_of_ascii c in
  if ((65 <=? n) && (n <=? 90))%nat then ascii_of_nat (n + 32) else c.

Fixpoint toLowerCase (s : string) : string :=
  match s with
  | EmptyString => EmptyString
  | String c rest => String (toLowerCase_ascii c) (toLowerCase rest)
  end.

(** The arguments of [assignPatient] ([services/geminiService.ts]). *)
Module Request.
Record t := mk
  { newPatient : PatientAdmissionData.t;
    availableSections : list Section.t;
    availableDoctors : list StaffMember.t;
    availableNurses : list StaffMember.t;
    admittedPatients : list Patient.t }.
End Request.

(** The promise returned by [assignPatient] either rejects or resolves to
    whatever the service's text parsed to ([None]: a falsy value). *)
Inductive ResolverOutcome :=
| Rejects
| Resolves (assignment : option AssignmentResponse.t).

Inductive Admission :=
| Finished (w : World)
| AwaitResolver (request : Request.t) (k : ResolverOutcome -> World).

Record AdmitEnv :=
  { Date_now : Z;
    admittedAt : string;
    doctorEnv : NotifyEnv;
    nurseEnv : NotifyEnv }.

(** How the [try] block is left. *)
Inductive Completion :=
| Normal (w : World)
| Return_ (w : World)
| Throw (w : World).

Definition nonEmpty (x : option string) : option string :=
  match x with
  | Some s => if s =? EmptyString then None else Some s
  | None => None
  end.

(** [!assignment || !assignment.sectionId || !assignment.doctorId ||
    !assignment.nurseId] is false exactly when this returns the three ids. *)
Definition assignmentIds (assignment : option AssignmentResponse.t)
  : option (string * string * string) :=
  a ← assignment;
  sectionId ← nonEmpty (AssignmentResponse.sectionId a);
  doctorId ← nonEmpty (AssignmentResponse.doctorId a);
  nurseId ← nonEmpty (AssignmentResponse.nurseId a);
  Some (sectionId, doctorId, nurseId).

Definition patientsIn (sectionId : string) (admitted : list Patient.t) : nat :=
  length (List.filter (fun p => Patient.assignedSectionId p =? sectionId) admitted).

Definition findSection (sectionId : string) (l : list Section.t) : option Section.t :=
  List.find (fun s => Section.id s =? sectionId) l.

Definition findStaff (staffId : string) (l : list StaffMember.t) : option StaffMember.t :=
  List.find (fun s => StaffMember.id s =? staffId) l.

Definition mkPatient (env : AdmitEnv) (patientData : PatientAdmissionData.t)
    (sectionId doctorId nurseId : string) : Patient.t :=
  {| Patient.id := "patient_" ++ pretty (Date_now env);
     Patient.name := PatientAdmissionData.name patientData;
     Patient.age := PatientAdmissionData.age patientData;
     Patient.symptoms := PatientAdmissionData.symptoms patientData;
     Patient.seriousness := PatientAdmissionData.seriousness patientData;
     Patient.assignedSectionId := sectionId;
     Patient.assignedDoctorId := doctorId;
     Patient.assignedNurseId := nurseId;
     Patient.admissionDate := admittedAt env;
     Patient.dischargeDate := None |}.

Definition dquote : string := String (ascii_of_nat 34) EmptyString.

Definition notifyIfFound (env : NotifyEnv) (member : option StaffMember.t)
    (patient : Patient.t) (w : World) : World :=
  match member with
  | Some m => createNotification env (StaffMember.id m) patient w
  | None => w
  end.

Definition admit_try (env : AdmitEnv) (patientData : PatientAdmissionData.t)
    (outcome : ResolverOutcome) (w : World) : Completion :=
  match outcome with
  | Rejects => Throw w
  | Resolves assignment =>
      match assignmentIds assignment with
      | None => Throw w
      | Some (sectionId, doctorId, nurseId) =>
          match findSection sectionId (sections w) with
          | None => Throw w
          | Some assignedSection =>
              let patientsInSection := patientsIn sectionId (admittedPatients w) in
              if (Section.capacity assignedSection <=? Z.of_nat patientsInSection)%Z then
                Return_
                  (setIsLoading false
                     (toast toast_error
                        ("Admission Failed: Section " ++ dquote
                           ++ Section.name assignedSection ++ dquote
                           ++ " is now full.") w))
              else
                let newPatient := mkPatient env patientData sectionId doctorId nurseId in
                let w := setAdmittedPatients (fun prev => prev ++ [newPatient]) w in
                let assignedDoctor := findStaff (Patient.assignedDoctorId newPatient) (staff w) in
                let assignedNurse := findStaff (Patient.assignedNurseId newPatient) (staff w) in
                let w := notifyIfFound (doctorEnv env) assignedDoctor newPatient w in
                let w := notifyIfFound (nurseEnv env) assignedNurse newPatient w in
                Normal
                  (toast toast_success
                     ("Patient " ++ PatientAdmissionData.name patientData
                        ++ " admitted. Assigned to "
                        ++ Section.name assignedSection ++ ".") w)
          end
      end
  end.

(** [catch] and [finally]. *)
Definition admit_after (c : Completion) : World :=
  match c with
  | Normal w | Return_ w => setIsLoading false w
  | Throw w =>
      setIsLoading false
        (toast toast_error
           "AI could not assign patient. Please check resources or try again." w)
  end.

Definition isNurse (s : StaffMember.t) : bool :=
  toLowerCase (StaffMember.role s) =? "nurse".

Definition availableSections (w : World) : list Section.t :=
  List.filter
    (fun s =>
       let admittedCount := patientsIn (Section.id s) (admittedPatients w) in
       (Z.of_nat admittedCount <? Section.capacity s)%Z)
    (sections w).

Definition assignedDoctorIds (w : World) : gset string :=
  list_to_set (map Patient.assignedDoctorId (admittedPatients w)).

Definition assignedNurseIds (w : World) : gset string :=
  list_to_set (map Patient.assignedNurseId (admittedPatients w)).

Definition availableDoctors (w : World) : list StaffMember.t :=
  List.filter
    (fun s => negb (isNurse s)
              && negb (bool_decide (StaffMember.id s ∈ assignedDoctorIds w)))
    (staff w).

Definition availableNurses (w : World) : list StaffMember.t :=
  List.filter
    (fun s => isNurse s
              && negb (bool_decide (StaffMember.id s ∈ assignedNurseIds w)))
    (staff w).

Definition handleAdmitPatient (env : AdmitEnv)
    (patientData : PatientAdmissionData.t) (w0 : World) : Admission :=
  let w := setIsAdmissionModalOpen false (setIsLoading true w0) in
  if (length (availableSections w) =? 0)%nat then
    Finished
      (setIsLoading false
         (toast toast_error "Admission Failed: No available beds in any section." w))
  else if (length (availableDoctors w) =? 0)%nat then
    Finished
      (setIsLoading false
         (toast toast_error "Admission Failed: All doctors are currently assigned." w))
  else if (length (availableNurses w) =? 0)%nat then
    Finished
      (setIsLoading false
         (toast toast_error "Admission Failed: All nurses are currently assigned." w))
  else
    AwaitResolver
      (Request.mk patientData (availableSections w) (availableDoctors w)
         (availableNurses w) (admittedPatients w))
      (fun outcome => admit_after (admit_try env patientData outcome w)).

(** The world once the promise has settled with [outcome]. *)
Definition settle (outcome : ResolverOutcome) (a : Admission) : World :=
  match a with
  | Finished w => w
  | AwaitResolver _ k => k outcome
  end.

(** The whole admission against a resolver. *)
Definition admitWith (resolver : Request.t -> ResolverOutcome) (env : AdmitEnv)
    (patientData : PatientAdmissionData.t) (w : World) : World :=
  match handleAdmitPatient env patientData w with
  | Finished w' => w'
  | AwaitResolver request k => k (resolver request)
  end.

(** ** [handleDischargePatient] *)

Definition handleDischargePatient (now : string) (patientId : string)
    (w : World) : World :=
  match List.find (fun p => Patient.id p =? patientId) (admittedPatients w) with
  | None => w
  | Some patientToDischarge =>
      let w :=
        setAdmittedPatients
          (fun prev => List.filter (fun p => negb (Patient.id p =? patientId)) prev) w in
      let w :=
        setDischargedPatients
          (fun prev => Patient.withDischargeDate patientToDischarge now :: prev) w in
      toast toast_info
        ("Patient " ++ Patient.name patientToDischarge ++ " has been discharged.") w
  end.

(** ** Sequences of operations *)

(** One user action.  An admission carries the outcome of its resolver
    call, so a sequence of operations fixes what the resolver answered at
    each step. *)
Inductive Op :=
| AdmitOp (env : AdmitEnv) (patientData : PatientAdmissionData.t)
          (outcome : ResolverOutcome)
| DischargeOp (now : string) (patientId : string).

Definition step (w : World) (op : Op) : World :=
  match op with
  | AdmitOp env patientData outcome =>
      settle outcome (handleAdmitPatient env patientData w)
  | DischargeOp now patientId => handleDischargePatient now patientId w
  end.

Definition run (ops : list Op) (w : World) : World := fold_left step ops w.

(** ** Vocabulary of the properties *)

Definition hasId (patientId : string) (p : Patient.t) : bool :=
  Patient.id p =? patientId.

(** The world in which the body of [handleAdmitPatient] runs. *)
Definition entered (w : World) : World :=
  setIsAdmissionModalOpen false (setIsLoading true w).

(** The world a committed admission leaves behind. *)
Definition committed (env : AdmitEnv) (patientData : PatientAdmissionData.t)
    (s : Section.t) (p : Patient.t) (w : World) : World :=
  setIsLoading false
    (toast toast_success
       ("Patient " ++ PatientAdmissionData.name patientData
          ++ " admitted. Assigned to " ++ Section.name s ++ ".")
       (notifyIfFound (nurseEnv env)
          (findStaff (Patient.assignedNurseId p) (staff w)) p
          (notifyIfFound (doctorEnv env)
             (findStaff (Patient.assignedDoctorId p) (staff w)) p
             (setAdmittedPatients (fun prev => prev ++ [p]) (entered w))))).

(** The world a failed admission leaves behind. *)
Definition failed (msg : string) (w : World) : World :=
  setIsLoading false (toast toast_error msg (entered w)).

Definition preflightPasses (w : World) : Prop :=
  availableSections w <> [] /\ availableDoctors w <> [] /\ availableNurses w <> [].

(** The resolver's answer passes the checks made after the call. *)
Definition accepted (w : World) (outcome : ResolverOutcome)
    (sectionId doctorId nurseId : string) (s : Section.t) : Prop :=
  exists assignment,
    outcome = Resolves assignment /\
    assignmentIds assignment = Some (sectionId, doctorId, nurseId) /\
    findSection sectionId (sections w) = Some s /\
    (Z.of_nat (patientsIn sectionId (admittedPatients w)) < Section.capacity s)%Z.

(** ** A small hospital used in the examples *)

Module Demo.
Definition ward : Section.t :=
  {| Section.id := "s1"; Section.name := "General Ward";
     Section.capacity := 2; Section.equipment := [] |}.

Definition house : StaffMember.t :=
  {| StaffMember.id := "d1"; StaffMember.name := "Dr. House";
     StaffMember.role := "General Doctor" |}.

Definition grey : StaffMember.t :=
  {| StaffMember.id := "d2"; StaffMember.name := "Dr. Grey";
     StaffMember.role := "Surgeon" |}.

Definition nightingale : StaffMember.t :=
  {| StaffMember.id := "n1"; StaffMember.name := "Florence Nightingale";
     StaffMember.role := "Nurse" |}.

Definition barton : StaffMember.t :=
  {| StaffMember.id := "n2"; StaffMember.name := "Clara Barton";
     StaffMember.role := "NURSE" |}.

Definition hospital : World :=
  {| sections := [ward]; staff := [house; grey; nightingale; barton];
     admittedPatients := []; dischargedPatients := [];
     appState := dashboard; isAdmissionModalOpen := true; isLoading := false;
     localStorage := ∅; toasts := [] |}.

Definition alice : PatientAdmissionData.t :=
  {| PatientAdmissionData.name := "Alice"; PatientAdmissionData.age := 41;
     PatientAdmissionData.symptoms := "chest pain";
     PatientAdmissionData.seriousness := 9 |}.

Definition bob : PatientAdmissionData.t :=
  {| PatientAdmissionData.name := "Bob"; PatientAdmissionData.age := 30;
     PatientAdmissionData.symptoms := "fever";
     PatientAdmissionData.seriousness := 3 |}.

Definition notifyEnv (uuid : string) : NotifyEnv :=
  {| randomUUID := uuid; notifiedAt := "2024-01-01T10:00:00.001Z";
     setItem_accepts := true |}.

Definition env (now : Z) : AdmitEnv :=
  {| Date_now := now; admittedAt := "2024-01-01T10:00:00.000Z";
     doctorEnv := notifyEnv "u1"; nurseEnv := notifyEnv "u2" |}.

Definition answer (sectionId doctorId nurseId : string) : ResolverOutcome :=
  Resolves
    (Some {| AssignmentResponse.sectionId := Some sectionId;
             AssignmentResponse.doctorId := Some doctorId;
             AssignmentResponse.nurseId := Some nurseId;
             AssignmentResponse.reasoning := Some "best match" |}).

(** Two admitted patients that carry the same id. *)
Definition twin (name : string) (doctorId nurseId : string) : Patient.t :=
  {| Patient.name := name; Patient.age := 50; Patient.symptoms := "cough";
     Patient.seriousness := 2; Patient.id := "patient_1700000000000";
     Patient.assignedSectionId := "s1"; Patient.assignedDoctorId := doctorId;
     Patient.assignedNurseId := nurseId;
     Patient.admissionDate := "2024-01-01T09:00:00.000Z";
     Patient.dischargeDate := None |}.

Definition crowded : World :=
  setAdmittedPatients (fun _ => [twin "Ann" "d1" "n1"; twin "Ben" "d2" "n2"]) hospital.
End Demo.

(** Two patient records that agree on every field but [dischargeDate]. *)
Definition sameButDischargeDate (p r : Patient.t) : Prop :=
  Patient.name r = Patient.name p /\
  Patient.age r = Patient.age p /\
  Patient.symptoms r = Patient.symptoms p /\
  Patient.seriousness r = Patient.seriousness p /\
  Patient.id r = Patient.id p /\
  Patient.assignedSectionId r = Patient.assignedSectionId p /\
  Patient.assignedDoctorId r = Patient.assignedDoctorId p /\
  Patient.assignedNurseId r = Patient.assignedNurseId p /\
  Patient.admissionDate r = Patient.admissionDate p.

Definition keepsOthers (patientId : string) (p : Patient.t) : bool :=
  negb (hasId patientId p).







Definition errorToast (msg : string) : Toast :=
  {| kind := toast_error; text := msg |}.




(** The state of a first run. *)
Definition firstRun : InitialState :=
  {| init_sections := JArray []; init_staff := JArray []; isInitialSetup := true |}.

(** [v.k] where the read cannot fail. *)
Definition field (k : string) (v : Json) : option Json :=
  match getProp k v with
  | inr x => x
  | inl _ => None
  end.

(** What a stored configuration loads to when it is taken as it is. *)
Definition loaded (v : Json) : InitialState :=
  {| init_sections := orEmptyArray (field "sections" v);
     init_staff := orEmptyArray (field "staff" v);
     isInitialSetup := false |}.

(** Loading with the two cases "absent or unparseable" and "present and
    parses". *)
Definition loadsByParse (store : gmap string Text) : Prop :=
  match store !! "hospital_config" ≫= JSON_parse with
  | None => getInitialState store = firstRun
  | Some v => getInitialState store = loaded v
  end.

(** The notifications persisted for a staff member: the items of the
    array stored under their key, none when the key holds no array. *)
Definition notificationsOf (store : gmap string Text) (staffId : string) : list Json :=
  match store !! notificationKey staffId with
  | Some (Stringified (JArray items)) => items
  | _ => []
  end.

(** The text under a key can be extended by [createNotification]: the key
    is absent, or holds the empty text or an array. *)
Definition readable (x : option Text) : bool :=
  match x with
  | None | Some EmptyText | Some (Stringified (JArray _)) => true
  | _ => false
  end.

(** The notification of [staffId] gets created: the member is on the staff
    list, the stored list can be extended, and the store accepts the write. *)
Definition delivers (env : NotifyEnv) (staffId : string) (w : World) : bool :=
  match findStaff staffId (staff w) with Some _ => true | None => false end
  && readable (localStorage w !! notificationKey staffId)
  && setItem_accepts env.

(** The notification recorded for [p] on behalf of [staffId], if created. *)
Definition posted (env : NotifyEnv) (p : Patient.t) (created : bool)
    (assignedId staffId : string) : list Json :=
  if created && (staffId =? assignedId)
  then [Notification_json.encode (newNotification env p)]
  else [].

(** The fan-out with both notifications always created: after [p] was
    admitted, the lists of its doctor and of its nurse each hold one more
    notification than before. *)
Definition notifiesBoth (w w' : World) : Prop :=
  forall p,
    admittedPatients w' = admittedPatients w ++ [p] ->
    (exists n,
        notificationsOf (localStorage w') (Patient.assignedDoctorId p)
        = notificationsOf (localStorage w) (Patient.assignedDoctorId p) ++ [n])
    /\
    (exists n,
        notificationsOf (localStorage w') (Patient.assignedNurseId p)
        = notificationsOf (localStorage w) (Patient.assignedNurseId p) ++ [n]).

(** The store after the guarded call [if (member) createNotification(...)]. *)
Definition storeAfter (env : NotifyEnv) (staffId : string) (p : Patient.t)
    (members : list StaffMember.t) (store : gmap string Text) : gmap string Text :=
  match findStaff staffId members with
  | Some m =>
      match createNotification_try env (StaffMember.id m) p store with
      | Some store' => store'
      | None => store
      end
  | None => store
  end.




(** The resolver keeps to its contract: an answer that carries the three
    ids names a doctor and a nurse among the candidates of the request. *)
Definition fromCandidates (w : World) (outcome : ResolverOutcome) : Prop :=
  forall assignment sectionId doctorId nurseId,
    outcome = Resolves assignment ->
    assignmentIds assignment = Some (sectionId, doctorId, nurseId) ->
    In doctorId (map StaffMember.id (availableDoctors w)) /\
    In nurseId (map StaffMember.id (availableNurses w)).

Definition opObeys (w : World) (op : Op) : Prop :=
  match op with
  | AdmitOp _ _ outcome => fromCandidates w outcome
  | DischargeOp _ _ => True
  end.

(** Every admission of the sequence, run from [w], keeps to the contract
    in the world where it is made. *)
Fixpoint obeys (w : World) (ops : list Op) : Prop :=
  match ops with
  | [] => True
  | op :: rest => opObeys w op /\ obeys (step w op) rest
  end.

(** The doctors of the admitted patients are pairwise distinct staff
    members whose role is not nurse; their nurses are pairwise distinct
    nurses. *)
Record Staffed (w : World) : Prop :=
  { doctors_distinct : List.NoDup (map Patient.assignedDoctorId (admittedPatients w));
    nurses_distinct : List.NoDup (map Patient.assignedNurseId (admittedPatients w));
    doctors_on_staff :
      forall p, In p (admittedPatients w) ->
        exists d, In d (staff w) /\ StaffMember.id d = Patient.assignedDoctorId p
                  /\ isNurse d = false;
    nurses_on_staff :
      forall p, In p (admittedPatients w) ->
        exists n, In n (staff w) /\ StaffMember.id n = Patient.assignedNurseId p
                  /\ isNurse n = true }.

(** The clock readings [Date.now()] of the admissions of a sequence. *)
Definition clocks (ops : list Op) : list Z :=
  flat_map
    (fun op =>
       match op with
       | AdmitOp env _ _ => [Date_now env]
       | DischargeOp _ _ => []
       end)
    ops.

(** The id given to a patient admitted at clock reading [now]. *)
Definition patientIdAt (now : Z) : string := "patient_" ++ pretty now.

(** ** [assignPatient]: the sections put into the prompt
    ([services/geminiService.ts]) *)

Module SimplifiedEquipment.
Record t := mk { name : string; available : Z }.
End SimplifiedEquipment.

Module SimplifiedSection.
Record t := mk
  { id : string; name : string; availableBeds : Z;
    equipment : list SimplifiedEquipment.t }.
End SimplifiedSection.

Definition simplifiedSections (availableSections : list Section.t)
    (admittedPatients : list Patient.t) : list SimplifiedSection.t :=
  List.filter
    (fun s => (SimplifiedSection.availableBeds s >? 0)%Z)
    (map
       (fun s =>
          let patientsInSection := patientsIn (Section.id s) admittedPatients in
          {| SimplifiedSection.id := Section.id s;
             SimplifiedSection.name := Section.name s;
             SimplifiedSection.availableBeds :=
               (Section.capacity s - Z.of_nat patientsInSection)%Z;
             SimplifiedSection.equipment :=
               map (fun e => {| SimplifiedEquipment.name := Equipment.name e;
                                SimplifiedEquipment.available := Equipment.available e |})
                 (Section.equipment s) |})
       availableSections).

(** ** [Dashboard]: the figures shown ([components/Dashboard.tsx]) *)

Module Dashboard.

Record Stats :=
  { assignedStaffIds : gset string;
    totalDoctors : nat;
    totalNurses : nat;
    availableDoctors : nat;
    availableNurses : nat }.

Definition stats (staff : list StaffMember.t) (admittedPatients : list Patient.t)
  : Stats :=
  let assignedIds : gset string :=
    fold_left
      (fun ids p =>
         {[ Patient.assignedNurseId p ]} ∪ ({[ Patient.assignedDoctorId p ]} ∪ ids))
      admittedPatients ∅ in
  let doctors := List.filter (fun s => negb (isNurse s)) staff in
  let nurses := List.filter (fun s => isNurse s) staff in
  {| assignedStaffIds := assignedIds;
     totalDoctors := length doctors;
     totalNurses := length nurses;
     availableDoctors :=
       length (List.filter
                 (fun d => negb (bool_decide (StaffMember.id d ∈ assignedIds))) doctors);
     availableNurses :=
       length (List.filter
                 (fun n => negb (bool_decide (StaffMember.id n ∈ assignedIds))) nurses) |}.

Definition patientsBySection (admittedPatients : list Patient.t)
  : gmap string (list Patient.t) :=
  fold_left
    (fun map patient =>
       let sectionId := Patient.assignedSectionId patient in
       let map :=
         match map !! sectionId with
         | None => <[ sectionId := [] ]> map
         | Some _ => map
         end in
       alter (fun l => l ++ [patient]) sectionId map)
    admittedPatients ∅.

(** [patientsBySection.get(section.id) || []] *)
Definition patientsInSection (admittedPatients : list Patient.t)
    (section : Section.t) : list Patient.t :=
  default [] (patientsBySection admittedPatients !! Section.id section).
End Dashboard.


(** ** Whitespace

    [trim] as JavaScript has it on text of the ASCII range: the characters
    removed are TAB, LF, VT, FF, CR and the space. *)

Definition isWhiteSpace (c : ascii) : bool :=
  let n := nat_of_ascii c in
  (((9 <=? n) && (n <=? 13)) || (n =? 32))%nat.

Fixpoint trimStart (s : string) : string :=
  match s with
  | EmptyString => EmptyString
  | String c rest => if isWhiteSpace c then trimStart rest else s
  end.

Fixpoint trimEnd (s : string) : string :=
  match s with
  | EmptyString => EmptyString
  | String c rest =>
      match trimEnd rest with
      | EmptyString => if isWhiteSpace c then EmptyString else String c EmptyString
      | rest' => String c rest'
      end
  end.

Definition trim (s : string) : string := trimEnd (trimStart s).

(** ** [SetupScreen]: submitting the configuration
    ([components/SetupScreen.tsx]) *)

Module SetupScreen.
(** An entry of [staffByRole]: the member's id and name. *)
Record Member := { member_id : string; member_name : string }.

(** What [handleSubmit] does: an [alert], or the call of
    [onSetupComplete]. *)
Inductive Submit :=
| Alert (msg : string)
| SetupComplete (sections : list Section.t) (staff : list StaffMember.t).

(** [Object.entries(staffByRole).flatMap(...)], on the entries of
    [staffByRole] in the order [Object.entries] yields them. *)
Definition staffList (staffByRole : list (string * list Member))
  : list StaffMember.t :=
  flat_map
    (fun entry =>
       map (fun member =>
              {| StaffMember.id := member_id member;
                 StaffMember.name := member_name member;
                 StaffMember.role := fst entry |})
         (snd entry))
    staffByRole.

Definition handleSubmit (sections : list Section.t)
    (staffByRole : list (string * list Member)) : Submit :=
  if existsb
       (fun s => (Section.name s =? EmptyString) || (Section.capacity s <=? 0)%Z)
       sections
     || (length sections =? 0)%nat
  then
    Alert "Please ensure all sections have a name and a capacity greater than 0."
  else
    let staffList := staffList staffByRole in
    if (length staffList =? 0)%nat
       || (length (List.filter (fun s => negb (isNurse s)) staffList) =? 0)%nat
       || (length (List.filter (fun s => isNurse s) staffList) =? 0)%nat
    then
      Alert "Please add at least one 'Nurse' and one other medical professional (e.g., Doctor, Surgeon)."
    else if existsb (fun s => trim (StaffMember.name s) =? EmptyString) staffList
    then Alert "Please ensure every staff member has a name."
    else SetupComplete sections staffList.

(** [addSection] and [removeSection]; the id comes from
    [crypto.randomUUID()]. *)
Definition addSection (uuid : string) (sections : list Section.t) : list Section.t :=
  sections
    ++ [ {| Section.id := uuid; Section.name := EmptyString;
            Section.capacity := 1; Section.equipment := [] |} ].

Definition removeSection (id : string) (sections : list Section.t) : list Section.t :=
  List.filter (fun s => negb (Section.id s =? id)) sections.

(** [addEquipment] and [removeEquipment]. *)
Definition addEquipment (uuid : string) (sectionId : string)
    (sections : list Section.t) : list Section.t :=
  let newEquipment :=
    {| Equipment.id := uuid; Equipment.name := EmptyString;
       Equipment.total := 1; Equipment.available := 1 |} in
  map (fun s =>
         if Section.id s =? sectionId
         then {| Section.id := Section.id s; Section.name := Section.name s;
                 Section.capacity := Section.capacity s;
                 Section.equipment := Section.equipment s ++ [newEquipment] |}
         else s)
    sections.

Definition removeEquipment (sectionId equipmentId : string)
    (sections : list Section.t) : list Section.t :=
  map (fun s =>
         if Section.id s =? sectionId
         then {| Section.id := Section.id s; Section.name := Section.name s;
                 Section.capacity := Section.capacity s;
                 Section.equipment :=
                   List.filter (fun e => negb (Equipment.id e =? equipmentId))
                     (Section.equipment s) |}
         else s)
    sections.
End SetupScreen.

(** ** [App]: completing the setup and persisting the configuration *)

Definition setSections (l : list Section.t) (w : World) : World :=
  mkWorld l (staff w) (admittedPatients w) (dischargedPatients w)
          (appState w) (isAdmissionModalOpen w) (isLoading w)
          (localStorage w) (toasts w).

Definition setStaff (l : list StaffMember.t) (w : World) : World :=
  mkWorld (sections w) l (admittedPatients w) (dischargedPatients w)
          (appState w) (isAdmissionModalOpen w) (isLoading w)
          (localStorage w) (toasts w).

Definition setAppState (a : AppState) (w : World) : World :=
  mkWorld (sections w) (staff w) (admittedPatients w) (dischargedPatients w)
          a (isAdmissionModalOpen w) (isLoading w) (localStorage w) (toasts w).

Definition handleSetupComplete (newSections : list Section.t)
    (newStaff : list StaffMember.t) (w : World) : World :=
  let w1 := setStaff newStaff (setSections newSections w) in
  let w2 :=
    toast toast_success
      (match appState w with
       | setup => "Hospital setup complete. Command center is now active."
       | _ => "Hospital configuration updated."
       end) w1 in
  setAppState dashboard w2.

(** [JSON.stringify] of the configuration records. *)
Module Config_json.
Definition encodeEquipment (e : Equipment.t) : Json :=
  JObject [ ("id", JString (Equipment.id e));
            ("name", JString (Equipment.name e));
            ("total", JNumber (Equipment.total e));
            ("available", JNumber (Equipment.available e)) ].

Definition encodeSection (s : Section.t) : Json :=
  JObject [ ("id", JString (Section.id s));
            ("name", JString (Section.name s));
            ("capacity", JNumber (Section.capacity s));
            ("equipment", JArray (map encodeEquipment (Section.equipment s))) ].

Definition encodeStaff (s : StaffMember.t) : Json :=
  JObject [ ("id", JString (StaffMember.id s));
            ("name", JString (StaffMember.name s));
            ("role", JString (StaffMember.role s)) ].

Definition encode (sections : list Section.t) (staff : list StaffMember.t) : Json :=
  JObject [ ("sections", JArray (map encodeSection sections));
            ("staff", JArray (map encodeStaff staff)) ].
End Config_json.

(** The effect that saves the configuration; [accepts] tells whether
    [localStorage.setItem] takes the write or throws. *)
Definition persistConfig (accepts : bool) (w : World) : World :=
  match appState w with
  | setup => w
  | _ =>
      if accepts then
        setLocalStorage
          (<[ "hospital_config" :=
                Stringified (Config_json.encode (sections w) (staff w)) ]>
             (localStorage w)) w
      else w
  end.

(** ** [StaffRegistration]: self-registration of a staff member
    ([components/StaffRegistration.tsx]) *)

Module StaffRegistration.
Record State :=
  { registeredId : option string;
    store : gmap string Text;
    shown : list Toast }.

(** [{ sections: [], staff: [] }] *)
Definition emptyConfig : Json :=
  JObject [ ("sections", JArray []); ("staff", JArray []) ].

(** [config.staff.push(member)], giving the configuration as it is then
    serialised; [None] is the [TypeError] raised when [config] is [null]
    or [config.staff] is not an array. *)
Definition pushStaff (member : Json) (config : Json) : option Json :=
  match config, getProp "staff" config with
  | JObject fields, inr (Some (JArray items)) =>
      Some (JObject
              (map (fun kv =>
                      if fst kv =? "staff"
                      then (fst kv, JArray (items ++ [member]))
                      else kv)
                 fields))
  | _, _ => None
  end.

Definition newStaffMember (uuid name role : string) : StaffMember.t :=
  {| StaffMember.id := "staff_" ++ uuid;
     StaffMember.name := trim name;
     StaffMember.role := role |}.

(** The [try] block; [None] is an exception. *)
Definition handleSubmit_try (uuid : string) (accepts : bool) (name role : string)
    (st : State) : option State :=
  let configStr := store st !! "hospital_config" in
  config ← (if present configStr then configStr ≫= JSON_parse else Some emptyConfig);
  let member := newStaffMember uuid name role in
  config' ← pushStaff (Config_json.encodeStaff member) config;
  if accepts then
    Some {| registeredId := Some (StaffMember.id member);
            store := <[ "hospital_config" := Stringified config' ]> (store st);
            shown := shown st
                       ++ [ {| kind := toast_success;
                               text := "Registration successful!" |} ] |}
  else None.

Definition handleSubmit (uuid : string) (accepts : bool) (name role : string)
    (st : State) : State :=
  if (trim name =? EmptyString) || (role =? EmptyString) then
    {| registeredId := registeredId st; store := store st;
       shown := shown st
                  ++ [ {| kind := toast_error;
                          text := "Please enter your name and select a role." |} ] |}
  else
    match handleSubmit_try uuid accepts name role st with
    | Some st' => st'
    | None =>
        {| registeredId := registeredId st; store := store st;
           shown := shown st
                      ++ [ {| kind := toast_error;
                              text := "Registration failed. Please try again." |} ] |}
    end.
End StaffRegistration.

Module RegistrationDemo.
Definition savedConfig : Json := Config_json.encode [Demo.ward] [Demo.house].

Definition open : StaffRegistration.State :=
  {| StaffRegistration.registeredId := None;
     StaffRegistration.store := {[ "hospital_config" := Stringified savedConfig ]};
     StaffRegistration.shown := [] |}.

End RegistrationDemo.

(** ** [StaffDashboard]: a staff member's view
    ([components/StaffDashboard.tsx])

    The component's [notifications] state is an array throughout; a
    handler that would put anything else there returns [None]. *)

Module StaffDashboard.
Record State :=
  { staffMember : option Json;
    notifications : list Json;
    shown : list Toast }.

Definition initial : State :=
  {| staffMember := None; notifications := []; shown := [] |}.

(** The text that a template literal makes of a value ([None] is
    [undefined]); numbers are integers written in decimal. *)
Fixpoint toText (v : Json) : string :=
  match v with
  | JNull => "null"
  | JBool true => "true"
  | JBool false => "false"
  | JNumber z => pretty z
  | JString s => s
  | JArray items =>
      (fix join (l : list Json) : string :=
         match l with
         | [] => EmptyString
         | x :: rest =>
             let head := match x with JNull => EmptyString | _ => toText x end in
             match rest with
             | [] => head
             | _ => (head ++ "," ++ join rest)%string
             end
         end) items
  | JObject _ => "[object Object]"
  end.

Definition interpolate (x : option Json) : string :=
  match x with
  | None => "undefined"
  | Some v => toText v
  end.

(** [s.id === staffId]; [inl tt] is the [TypeError] on [null]. *)
Definition hasStaffId (staffId : string) (s : Json) : unit + bool :=
  match getProp "id" s with
  | inl e => inl e
  | inr (Some (JString i)) => inr (i =? staffId)
  | inr _ => inr false
  end.

(** [Array.prototype.find] with a callback that may throw. *)
Fixpoint findFirst (f : Json -> unit + bool) (l : list Json) : unit + option Json :=
  match l with
  | [] => inr None
  | x :: rest =>
      match f x with
      | inl e => inl e
      | inr true => inr (Some x)
      | inr false => findFirst f rest
      end
  end.

(** [config.staff.find(s => s.id === staffId)] *)
Definition findMember (staffId : string) (config : Json) : unit + option Json :=
  match getProp "staff" config with
  | inr (Some (JArray items)) => findFirst (hasStaffId staffId) items
  | _ => inl tt
  end.

(** [member || null] *)
Definition orNull (x : option Json) : option Json :=
  match x with
  | Some v => if truthy v then Some v else None
  | None => None
  end.

Definition loadInitialData (staffId : string) (store : gmap string Text)
    (st : State) : option State :=
  let configStr := store !! "hospital_config" in
  (* first statement of the [try] block; [inl tt] is an exception *)
  let loaded : unit + State :=
    if present configStr then
      match configStr ≫= JSON_parse with
      | None => inl tt
      | Some config =>
          match findMember staffId config with
          | inl e => inl e
          | inr member =>
              inr {| staffMember := orNull member;
                     notifications := notifications st; shown := shown st |}
          end
      end
    else inr st in
  match loaded with
  | inl _ => Some st
  | inr st1 =>
      let notificationsStr := store !! notificationKey staffId in
      if present notificationsStr then
        match notificationsStr ≫= JSON_parse with
        | None => Some st1
        | Some (JArray items) =>
            Some {| staffMember := staffMember st1; notifications := items;
                    shown := shown st1 |}
        | Some _ => None
        end
      else Some st1
  end.

(** The [storage] event handler; [key] and [newValue] are the event's. *)
Definition handleStorageChange (staffId : string) (key : string)
    (newValue : option Text) (st : State) : option State :=
  if (key =? notificationKey staffId) && present newValue then
    match newValue ≫= JSON_parse with
    | None | Some JNull => Some st
    | Some (JArray newNotifications) =>
        let announced :=
          if (length (notifications st) <? length newNotifications)%nat then
            match last newNotifications with
            | Some lastNotification =>
                if truthy lastNotification then
                  match getProp "patientName" lastNotification with
                  | inr patientName =>
                      [ {| kind := toast_info;
                           text := "New Assignment: " ++ interpolate patientName |} ]
                  | inl _ => []
                  end
                else []
            | None => []
            end
          else [] in
        Some {| staffMember := staffMember st;
                notifications := newNotifications;
                shown := shown st ++ announced |}
    | Some _ => None
    end
  else Some st.
End StaffDashboard.

(** ** [Toaster]: the messages on display ([components/Toaster.tsx]) *)

Module Toaster.
Record ToastMessage := { id : nat; message : string; type : ToastKind }.

(** The module-level counter and the state of the mounted [Toaster]. *)
Record State := { toastCount : nat; toasts : list ToastMessage }.

(** [toast.success], [toast.error], [toast.info]: the message gets the
    current count as id, the count goes up, and the listener of the
    mounted [Toaster] puts the message in front. *)
Definition emit (type : ToastKind) (message : string) (st : State) : State :=
  {| toastCount := S (toastCount st);
     toasts := {| id := toastCount st; message := message; type := type |}
                 :: toasts st |}.

Definition onDismiss (dismissed : nat) (st : State) : State :=
  {| toastCount := toastCount st;
     toasts := List.filter (fun t => negb (id t =? dismissed)%nat) (toasts st) |}.

(** A message is emitted, or one is dismissed (by its button or by its
    timer). *)
Inductive Event :=
| Emitted (type : ToastKind) (message : string)
| Dismissed (dismissed : nat).

Definition handle (st : State) (e : Event) : State :=
  match e with
  | Emitted type message => emit type message st
  | Dismissed dismissed => onDismiss dismissed st
  end.

Definition run (events : list Event) (st : State) : State :=
  fold_left handle events st.
End Toaster.

(** ** [SetupScreen]: editing names and the staff of a role

    [staffByRole] is given by its entries in the order of [Object.entries],
    one entry per key.  The role passed to a staff operation is one of the
    roles on display, a default role or a key of [staffByRole]; no key is
    an array index. *)

Module SetupEdit.
(** [updateSection(id, 'name', value)] *)
Definition updateSectionName (id value : string) (sections : list Section.t)
  : list Section.t :=
  map (fun s =>
         if Section.id s =? id
         then {| Section.id := Section.id s; Section.name := value;
                 Section.capacity := Section.capacity s;
                 Section.equipment := Section.equipment s |}
         else s)
    sections.

(** [prev[role]] *)
Definition lookupRole (role : string)
    (staffByRole : list (string * list SetupScreen.Member))
  : option (list SetupScreen.Member) :=
  snd <$> List.find (fun entry => fst entry =? role) staffByRole.

(** [{ ...prev, [role]: members }] *)
Definition setRole (role : string) (members : list SetupScreen.Member)
    (staffByRole : list (string * list SetupScreen.Member))
  : list (string * list SetupScreen.Member) :=
  if existsb (fun entry => fst entry =? role) staffByRole
  then map (fun entry => if fst entry =? role then (fst entry, members) else entry)
         staffByRole
  else staffByRole ++ [(role, members)].

(** [delete newState[role]] *)
Definition deleteRole (role : string)
    (staffByRole : list (string * list SetupScreen.Member))
  : list (string * list SetupScreen.Member) :=
  List.filter (fun entry => negb (fst entry =? role)) staffByRole.

Definition addStaffMember (uuid : string) (role : string)
    (prev : list (string * list SetupScreen.Member))
  : list (string * list SetupScreen.Member) :=
  let newMember :=
    {| SetupScreen.member_id := uuid; SetupScreen.member_name := EmptyString |} in
  setRole role (default [] (lookupRole role prev) ++ [newMember]) prev.

(** [None] is the [TypeError] of [prev[role].map] on a missing role. *)
Definition updateStaffMemberName (role id name : string)
    (prev : list (string * list SetupScreen.Member))
  : option (list (string * list SetupScreen.Member)) :=
  members ← lookupRole role prev;
  Some (setRole role
          (map (fun m =>
                  if SetupScreen.member_id m =? id
                  then {| SetupScreen.member_id := SetupScreen.member_id m;
                          SetupScreen.member_name := name |}
                  else m)
             members)
          prev).

(** [None] is the [TypeError] of [prev[role].filter] on a missing role. *)
Definition removeStaffMember (role id : string)
    (prev : list (string * list SetupScreen.Member))
  : option (list (string * list SetupScreen.Member)) :=
  members ← lookupRole role prev;
  let updatedRole :=
    List.filter (fun m => negb (SetupScreen.member_id m =? id)) members in
  if (length updatedRole =? 0)%nat
  then Some (deleteRole role prev)
  else Some (setRole role updatedRole prev).
End SetupEdit.

(** The member ids on the form, and the form's keys. *)
Definition memberIds (staffByRole : list (string * list SetupScreen.Member))
  : list string :=
  flat_map (fun entry => map SetupScreen.member_id (snd entry)) staffByRole.

Definition distinctStaff (staffByRole : list (string * list SetupScreen.Member))
  : Prop :=
  List.NoDup (map fst staffByRole) /\ List.NoDup (memberIds staffByRole).

(** ** [App]: taking over a configuration saved by another tab

    The value parsed from the event is read as the records that
    [JSON.stringify] writes for a configuration (see [Config_json]); for a
    value of any other shape, which the typed state of [App] cannot hold,
    the handler returns [None]. *)

Module Config_read.
Definition readEquipment (v : Json) : option Equipment.t :=
  match v with
  | JObject [(k1, JString id); (k2, JString name); (k3, JNumber total);
             (k4, JNumber available)] =>
      if (k1 =? "id") && (k2 =? "name") && (k3 =? "total") && (k4 =? "available")
      then Some {| Equipment.id := id; Equipment.name := name;
                   Equipment.total := total; Equipment.available := available |}
      else None
  | _ => None
  end.

Definition readSection (v : Json) : option Section.t :=
  match v with
  | JObject [(k1, JString id); (k2, JString name); (k3, JNumber capacity);
             (k4, JArray equipment)] =>
      if (k1 =? "id") && (k2 =? "name") && (k3 =? "capacity") && (k4 =? "equipment")
      then
        equipment ← mapM readEquipment equipment;
        Some {| Section.id := id; Section.name := name;
                Section.capacity := capacity; Section.equipment := equipment |}
      else None
  | _ => None
  end.

Definition readStaff (v : Json) : option StaffMember.t :=
  match v with
  | JObject [(k1, JString id); (k2, JString name); (k3, JString role)] =>
      if (k1 =? "id") && (k2 =? "name") && (k3 =? "role")
      then Some {| StaffMember.id := id; StaffMember.name := name;
                   StaffMember.role := role |}
      else None
  | _ => None
  end.

Definition readArray {A} (read : Json -> option A) (v : option Json) : option (list A) :=
  match v with
  | Some (JArray items) => mapM read items
  | _ => None
  end.
End Config_read.

Definition syncState (key : string) (newValue : option Text) (w : World)
  : option World :=
  if (key =? "hospital_config") && present newValue then
    match newValue ≫= JSON_parse with
    | None => Some w
    | Some parsed =>
        match getProp "sections" parsed, getProp "staff" parsed with
        | inr newSections, inr newStaff =>
            newSections ← Config_read.readArray Config_read.readSection newSections;
            newStaff ← Config_read.readArray Config_read.readStaff newStaff;
            Some (toast toast_info "Hospital configuration updated automatically."
                    (setStaff newStaff (setSections newSections w)))
        | _, _ => Some w
        end
    end
  else Some w.

(** * Properties *)

(** ** Lists: first match, filtering, counting *)

Section ListFacts.
Context {A : Type}.
Implicit Types (f : A -> bool) (l : list A).

Lemma find_split f l x :
  List.find f l = Some x ->
  exists l1 l2, l = l1 ++ x :: l2 /\ f x = true /\ Forall (fun y => f y = false) l1.
Proof.
  induction l as [|a l IH]; simpl; [discriminate|].
  destruct (f a) eqn:Ha.
  - intros [= ->]. exists [], l. repeat split; auto.
  - intros H. destruct (IH H) as (l1 & l2 & -> & Hx & Hl1).
    exists (a :: l1), l2. repeat split; auto.
Qed.

Lemma find_none_iff f l :
  List.find f l = None <-> Forall (fun y => f y = false) l.
Proof.
  induction l as [|a l IH]; simpl.
  - split; auto.
  - destruct (f a) eqn:Ha.
    + split; [discriminate|]. intros H. apply Forall_cons_1 in H as [H _]. congruence.
    + rewrite IH. split; [intros H; constructor; auto|].
      intros H. apply Forall_cons_1 in H as [_ H]. exact H.
Qed.

Lemma filter_all_false f l :
  Forall (fun y => f y = false) l -> List.filter f l = [].
Proof.
  induction 1 as [|a l Ha _ IH]; simpl; [reflexivity|]. now rewrite Ha.
Qed.

Lemma filter_all_true f l :
  Forall (fun y => f y = true) l -> List.filter f l = l.
Proof.
  induction 1 as [|a l Ha _ IH]; simpl; [reflexivity|]. rewrite Ha. now f_equal.
Qed.

Lemma filter_idem f l : List.filter f (List.filter f l) = List.filter f l.
Proof.
  apply filter_all_true. apply List.Forall_forall. intros x Hx.
  apply List.filter_In in Hx. tauto.
Qed.


Lemma length_zero_nil l : (length l =? 0)%nat = true <-> l = [].
Proof. destruct l; simpl; split; (reflexivity || discriminate). Qed.

Lemma app_singleton_neq l x : l ++ [x] <> l.
Proof.
  intros H. apply (f_equal (@length A)) in H.
  rewrite length_app in H. simpl in H. lia.
Qed.

Lemma filter_filter_length_le f g l :
  (length (List.filter f (List.filter g l)) <= length (List.filter f l))%nat.
Proof.
  induction l as [|a l IH]; simpl; [lia|].
  destruct (g a), (f a) eqn:Hf; simpl; rewrite ?Hf; simpl; lia.
Qed.
End ListFacts.

(** ** String equality tests *)

Lemma eqb_string_eq (a b : string) : (a =? b) = true <-> a = b.
Proof. apply String.eqb_eq. Qed.

Lemma eqb_string_neq (a b : string) : (a =? b) = false <-> a <> b.
Proof. apply String.eqb_neq. Qed.

(** ** Discharge *)

Lemma discharge_found now patientId w p :
  List.find (hasId patientId) (admittedPatients w) = Some p ->
  handleDischargePatient now patientId w =
    toast toast_info ("Patient " ++ Patient.name p ++ " has been discharged.")
      (setDischargedPatients (fun prev => Patient.withDischargeDate p now :: prev)
         (setAdmittedPatients
            (fun prev => List.filter (fun q => negb (hasId patientId q)) prev) w)).
Proof.
  intros H. unfold handleDischargePatient.
  change (fun p0 : Patient.t => Patient.id p0 =? patientId) with (hasId patientId).
  now rewrite H.
Qed.

Lemma discharge_not_found now patientId w :
  List.find (hasId patientId) (admittedPatients w) = None ->
  handleDischargePatient now patientId w = w.
Proof.
  intros H. unfold handleDischargePatient.
  change (fun p0 : Patient.t => Patient.id p0 =? patientId) with (hasId patientId).
  now rewrite H.
Qed.

Lemma find_hasId_some patientId l :
  (exists p, In p l /\ Patient.id p = patientId) ->
  exists p, List.find (hasId patientId) l = Some p.
Proof.
  intros (p & Hin & Hid).
  destruct (List.find (hasId patientId) l) as [q|] eqn:Hf; [eauto|].
  apply find_none_iff in Hf. rewrite List.Forall_forall in Hf.
  specialize (Hf p Hin). unfold hasId in Hf. apply eqb_string_neq in Hf. contradiction.
Qed.

Lemma find_hasId_none patientId l :
  (forall p, In p l -> Patient.id p <> patientId) ->
  List.find (hasId patientId) l = None.
Proof.
  intros H. apply find_none_iff, List.Forall_forall. intros p Hp.
  apply eqb_string_neq. auto.
Qed.

(** ** The shape of every admission *)

Lemma admit_preflight env patientData w :
  handleAdmitPatient env patientData w =
    if (length (availableSections w) =? 0)%nat then
      Finished (failed "Admission Failed: No available beds in any section." w)
    else if (length (availableDoctors w) =? 0)%nat then
      Finished (failed "Admission Failed: All doctors are currently assigned." w)
    else if (length (availableNurses w) =? 0)%nat then
      Finished (failed "Admission Failed: All nurses are currently assigned." w)
    else
      AwaitResolver
        (Request.mk patientData (availableSections w) (availableDoctors w)
           (availableNurses w) (admittedPatients w))
        (fun outcome => admit_after (admit_try env patientData outcome (entered w))).
Proof. reflexivity. Qed.

Lemma admit_try_cases env patientData outcome w :
  (exists sectionId doctorId nurseId s,
      accepted w outcome sectionId doctorId nurseId s /\
      admit_after (admit_try env patientData outcome (entered w)) =
        committed env patientData s
          (mkPatient env patientData sectionId doctorId nurseId) w)
  \/ (exists msg,
        admit_after (admit_try env patientData outcome (entered w)) = failed msg w).
Proof.
  unfold admit_try.
  destruct outcome as [|assignment]; [right; eexists; reflexivity|].
  destruct (assignmentIds assignment) as [[[sectionId doctorId] nurseId]|] eqn:Hids;
    [|right; eexists; reflexivity].
  change (sections (entered w)) with (sections w).
  change (admittedPatients (entered w)) with (admittedPatients w).
  destruct (findSection sectionId (sections w)) as [s|] eqn:Hs;
    [|right; eexists; reflexivity].
  destruct (Section.capacity s <=? Z.of_nat (patientsIn sectionId (admittedPatients w)))%Z
    eqn:Hfull; [right; eexists; reflexivity|].
  left. exists sectionId, doctorId, nurseId, s. split.
  - exists assignment. repeat split; auto. apply Z.leb_gt in Hfull. exact Hfull.
  - reflexivity.
Qed.

Lemma admit_cases env patientData w outcome :
  (exists sectionId doctorId nurseId s,
      preflightPasses w /\
      accepted w outcome sectionId doctorId nurseId s /\
      settle outcome (handleAdmitPatient env patientData w) =
        committed env patientData s
          (mkPatient env patientData sectionId doctorId nurseId) w)
  \/ (exists msg,
        settle outcome (handleAdmitPatient env patientData w) = failed msg w).
Proof.
  rewrite admit_preflight.
  destruct (length (availableSections w) =? 0)%nat eqn:Hs;
    [right; eexists; reflexivity|].
  destruct (length (availableDoctors w) =? 0)%nat eqn:Hd;
    [right; eexists; reflexivity|].
  destruct (length (availableNurses w) =? 0)%nat eqn:Hn;
    [right; eexists; reflexivity|].
  simpl settle.
  destruct (admit_try_cases env patientData outcome w)
    as [(sectionId & doctorId & nurseId & s & Hacc & Heq)|[msg Heq]].
  - left. exists sectionId, doctorId, nurseId, s. repeat split; auto.
    + intros E. rewrite E in Hs. discriminate.
    + intros E. rewrite E in Hd. discriminate.
    + intros E. rewrite E in Hn. discriminate.
  - right. eauto.
Qed.

(** Fields of the two final worlds. *)

Lemma localStorage_createNotification_other_fields env staffId p w :
  sections (createNotification env staffId p w) = sections w /\
  staff (createNotification env staffId p w) = staff w /\
  admittedPatients (createNotification env staffId p w) = admittedPatients w /\
  dischargedPatients (createNotification env staffId p w) = dischargedPatients w /\
  toasts (createNotification env staffId p w) = toasts w.
Proof.
  unfold createNotification.
  destruct (createNotification_try _ _ _ _); simpl; auto.
Qed.

Lemma notifyIfFound_fields env m p w :
  sections (notifyIfFound env m p w) = sections w /\
  staff (notifyIfFound env m p w) = staff w /\
  admittedPatients (notifyIfFound env m p w) = admittedPatients w /\
  dischargedPatients (notifyIfFound env m p w) = dischargedPatients w /\
  toasts (notifyIfFound env m p w) = toasts w.
Proof.
  destruct m; simpl; auto. apply localStorage_createNotification_other_fields.
Qed.

Lemma committed_fields env patientData s p w :
  sections (committed env patientData s p w) = sections w /\
  staff (committed env patientData s p w) = staff w /\
  admittedPatients (committed env patientData s p w) = admittedPatients w ++ [p] /\
  dischargedPatients (committed env patientData s p w) = dischargedPatients w.
Proof.
  unfold committed. simpl.
  destruct (notifyIfFound_fields (nurseEnv env)
              (findStaff (Patient.assignedNurseId p) (staff w)) p
              (notifyIfFound (doctorEnv env)
                 (findStaff (Patient.assignedDoctorId p) (staff w)) p
                 (setAdmittedPatients (fun prev => prev ++ [p]) (entered w))))
    as (-> & -> & -> & -> & _).
  destruct (notifyIfFound_fields (doctorEnv env)
              (findStaff (Patient.assignedDoctorId p) (staff w)) p
              (setAdmittedPatients (fun prev => prev ++ [p]) (entered w)))
    as (-> & -> & -> & -> & _).
  simpl. auto.
Qed.

Lemma failed_fields msg w :
  sections (failed msg w) = sections w /\
  staff (failed msg w) = staff w /\
  admittedPatients (failed msg w) = admittedPatients w /\
  dischargedPatients (failed msg w) = dischargedPatients w /\
  localStorage (failed msg w) = localStorage w /\
  toasts (failed msg w) = toasts w ++ [ {| kind := toast_error; text := msg |} ].
Proof. repeat split. Qed.

Example isNurse_ignores_case :
  map isNurse [Demo.house; Demo.grey; Demo.nightingale; Demo.barton]
  = [false; false; true; true].
Proof. reflexivity. Qed.

Example admit_alice :
  map Patient.assignedDoctorId
    (admittedPatients
       (settle (Demo.answer "s1" "d1" "n1")
          (handleAdmitPatient (Demo.env 1700000000000) Demo.alice Demo.hospital)))
  = ["d1"].
Proof. vm_compute. reflexivity. Qed.

Lemma discharge_admitted now patientId w :
  admittedPatients (handleDischargePatient now patientId w)
  = List.filter (keepsOthers patientId) (admittedPatients w).
Proof.
  destruct (List.find (hasId patientId) (admittedPatients w)) as [p|] eqn:Hf.
  - rewrite (discharge_found _ _ _ _ Hf). reflexivity.
  - rewrite (discharge_not_found _ _ _ Hf). symmetry.
    apply filter_all_true. apply find_none_iff in Hf.
    eapply List.Forall_impl; [|exact Hf]. intros q Hq. unfold keepsOthers. now rewrite Hq.
Qed.

Lemma keepsOthers_spec patientId q :
  keepsOthers patientId q = true <-> Patient.id q <> patientId.
Proof.
  unfold keepsOthers, hasId. rewrite negb_true_iff. apply eqb_string_neq.
Qed.

Lemma discharge_fields now patientId w :
  sections (handleDischargePatient now patientId w) = sections w /\
  staff (handleDischargePatient now patientId w) = staff w /\
  localStorage (handleDischargePatient now patientId w) = localStorage w.
Proof.
  destruct (List.find (hasId patientId) (admittedPatients w)) as [p|] eqn:Hf.
  - rewrite (discharge_found _ _ _ _ Hf). repeat split.
  - rewrite (discharge_not_found _ _ _ Hf). repeat split.
Qed.

Lemma withDischargeDate_same p now :
  sameButDischargeDate p (Patient.withDischargeDate p now).
Proof. repeat split. Qed.

(** C6. Discharging an id that some admitted patient carries removes it
    from the admitted collection (no admitted patient with that id is
    left, the others stay as they were and in order) and puts exactly one
    record at the front of the discharged collection, equal to the
    patient found except that [dischargeDate] holds the current time.
    Discharging an id that no admitted patient carries returns the world
    as it was: both collections unchanged, no message, no error. *)
Theorem discharge_moves_patient now patientId w :
  ((exists p, In p (admittedPatients w) /\ Patient.id p = patientId) ->
   exists p r,
     In p (admittedPatients w) /\ Patient.id p = patientId /\
     admittedPatients (handleDischargePatient now patientId w)
       = List.filter (keepsOthers patientId) (admittedPatients w) /\
     (forall q, In q (admittedPatients (handleDischargePatient now patientId w)) ->
                Patient.id q <> patientId) /\
     dischargedPatients (handleDischargePatient now patientId w)
       = r :: dischargedPatients w /\
     sameButDischargeDate p r /\
     Patient.dischargeDate r = Some now)
  /\
  ((forall p, In p (admittedPatients w) -> Patient.id p <> patientId) ->
   handleDischargePatient now patientId w = w).
Proof.
  split.
  - intros Hex. destruct (find_hasId_some _ _ Hex) as [p Hf].
    destruct (find_split _ _ _ Hf) as (l1 & l2 & Hl & Hp & _).
    exists p, (Patient.withDischargeDate p now). repeat split.
    + rewrite Hl. apply in_elt.
    + now apply eqb_string_eq.
    + apply discharge_admitted.
    + intros q Hq. rewrite discharge_admitted in Hq.
      apply List.filter_In in Hq as [_ Hq]. now apply keepsOthers_spec.
    + rewrite (discharge_found _ _ _ _ Hf). reflexivity.
  - intros Hnone. apply discharge_not_found. now apply find_hasId_none.
Qed.

Lemma discharge_moves_patient_witness :
  (exists p, In p (admittedPatients Demo.crowded)
             /\ Patient.id p = "patient_1700000000000")
  /\ (forall p, In p (admittedPatients Demo.hospital) -> Patient.id p <> "patient_7")
  /\ handleDischargePatient "2024-01-02T08:00:00.000Z" "patient_7" Demo.hospital
     = Demo.hospital
  /\ length (dischargedPatients
               (handleDischargePatient "2024-01-02T08:00:00.000Z"
                  "patient_1700000000000" Demo.crowded)) = 1%nat.
Proof.
  assert (H1 : exists p, In p (admittedPatients Demo.crowded)
                         /\ Patient.id p = "patient_1700000000000").
  { exists (Demo.twin "Ann" "d1" "n1"). split; [left; reflexivity | reflexivity]. }
  assert (H2 : forall p, In p (admittedPatients Demo.hospital)
                         -> Patient.id p <> "patient_7").
  { intros p []. }
  split; [exact H1|]. split; [exact H2|]. split.
  - exact (proj2 (discharge_moves_patient "2024-01-02T08:00:00.000Z" "patient_7"
                    Demo.hospital) H2).
  - destruct (proj1 (discharge_moves_patient "2024-01-02T08:00:00.000Z"
                       "patient_1700000000000" Demo.crowded) H1)
      as (p & r & _ & _ & _ & _ & Hd & _).
    rewrite Hd. reflexivity.
Defined.

(** C9. When two or more admitted patients carry the id being discharged,
    every one of them leaves the admitted collection, and the discharged
    collection gains a single record, made from the first of them. *)
Theorem discharge_duplicate_ids now patientId w :
  (2 <= length (List.filter (hasId patientId) (admittedPatients w)))%nat ->
  exists before p after,
    admittedPatients w = before ++ p :: after /\
    Patient.id p = patientId /\
    Forall (fun q => Patient.id q <> patientId) before /\
    (forall q, In q (admittedPatients (handleDischargePatient now patientId w)) ->
               Patient.id q <> patientId) /\
    (length (admittedPatients (handleDischargePatient now patientId w)) + 2
       <= length (admittedPatients w))%nat /\
    dischargedPatients (handleDischargePatient now patientId w)
      = Patient.withDischargeDate p now :: dischargedPatients w.
Proof.
  intros Htwo.
  destruct (List.find (hasId patientId) (admittedPatients w)) as [p|] eqn:Hf.
  - destruct (find_split _ _ _ Hf) as (l1 & l2 & Hl & Hp & Hl1).
    exists l1, p, l2. repeat split.
    + exact Hl.
    + now apply eqb_string_eq.
    + eapply List.Forall_impl; [|exact Hl1]. intros q Hq. now apply eqb_string_neq.
    + intros q Hq. rewrite discharge_admitted in Hq.
      apply List.filter_In in Hq as [_ Hq]. now apply keepsOthers_spec.
    + rewrite discharge_admitted.
      pose proof (List.filter_length (hasId patientId) (admittedPatients w)) as Hlen.
      unfold keepsOthers. lia.
    + rewrite (discharge_found _ _ _ _ Hf). reflexivity.
  - apply find_none_iff, filter_all_false in Hf. rewrite Hf in Htwo.
    simpl in Htwo. lia.
Qed.

Lemma discharge_duplicate_ids_witness :
  (2 <= length (List.filter (hasId "patient_1700000000000")
                  (admittedPatients Demo.crowded)))%nat
  /\ exists before p after,
       admittedPatients Demo.crowded = before ++ p :: after /\
       Patient.id p = "patient_1700000000000" /\
       Forall (fun q => Patient.id q <> "patient_1700000000000") before /\
       (forall q,
           In q (admittedPatients
                   (handleDischargePatient "2024-01-02T08:00:00.000Z"
                      "patient_1700000000000" Demo.crowded)) ->
           Patient.id q <> "patient_1700000000000") /\
       (length (admittedPatients
                  (handleDischargePatient "2024-01-02T08:00:00.000Z"
                     "patient_1700000000000" Demo.crowded)) + 2
          <= length (admittedPatients Demo.crowded))%nat /\
       dischargedPatients
         (handleDischargePatient "2024-01-02T08:00:00.000Z"
            "patient_1700000000000" Demo.crowded)
         = Patient.withDischargeDate p "2024-01-02T08:00:00.000Z"
             :: dischargedPatients Demo.crowded.
Proof.
  assert (H : (2 <= length (List.filter (hasId "patient_1700000000000")
                              (admittedPatients Demo.crowded)))%nat).
  { simpl. lia. }
  split; [exact H|].
  exact (discharge_duplicate_ids "2024-01-02T08:00:00.000Z"
           "patient_1700000000000" Demo.crowded H).
Defined.

Example discharge_twins :
  let w := handleDischargePatient "2024-01-02T08:00:00.000Z"
             "patient_1700000000000" Demo.crowded in
  admittedPatients w = []
  /\ map Patient.name (dischargedPatients w) = ["Ann"].
Proof. split; reflexivity. Qed.

(** C10. An admission, however it ends, leaves the section list, the
    staff list and the discharged collection as they were.  A discharge
    leaves the section list and the staff list as they were, and the
    admitted patients whose id differs from the discharged one stay in
    the collection, unchanged and in the same order; no other record
    enters the collection. *)
Theorem workflows_frame :
  (forall env patientData w outcome,
      sections (settle outcome (handleAdmitPatient env patientData w)) = sections w /\
      staff (settle outcome (handleAdmitPatient env patientData w)) = staff w /\
      dischargedPatients (settle outcome (handleAdmitPatient env patientData w))
        = dischargedPatients w)
  /\
  (forall now patientId w,
      sections (handleDischargePatient now patientId w) = sections w /\
      staff (handleDischargePatient now patientId w) = staff w /\
      List.filter (keepsOthers patientId)
        (admittedPatients (handleDischargePatient now patientId w))
        = List.filter (keepsOthers patientId) (admittedPatients w) /\
      (forall q, In q (admittedPatients (handleDischargePatient now patientId w)) ->
                 In q (admittedPatients w))).
Proof.
  split.
  - intros env patientData w outcome.
    destruct (admit_cases env patientData w outcome)
      as [(sectionId & doctorId & nurseId & s & _ & _ & ->)|[msg ->]].
    + pose proof (committed_fields env patientData s
                    (mkPatient env patientData sectionId doctorId nurseId) w).
      tauto.
    + pose proof (failed_fields msg w). tauto.
  - intros now patientId w.
    destruct (discharge_fields now patientId w) as (Hs & Hst & _).
    repeat split; auto.
    + rewrite discharge_admitted. apply filter_idem.
    + intros q Hq. rewrite discharge_admitted in Hq.
      now apply List.filter_In in Hq as [Hq _].
Qed.

(** ** Pre-flight checks *)

Lemma in_assigned_set (x : string) (l : list string) :
  bool_decide (x ∈ (list_to_set l : gset string)) = true <-> In x l.
Proof.
  rewrite bool_decide_eq_true, elem_of_list_to_set. apply list_elem_of_In.
Qed.

Lemma not_in_assigned_set (x : string) (l : list string) :
  negb (bool_decide (x ∈ (list_to_set l : gset string))) = false <-> In x l.
Proof. rewrite negb_false_iff. apply in_assigned_set. Qed.




Lemma length_nonzero_not_nil {A} (l : list A) :
  (length l =? 0)%nat = false <-> l <> [].
Proof. destruct l; simpl; split; (congruence || discriminate). Qed.



(** ** Unusable resolver outcomes *)



Lemma findSection_some sectionId l s :
  findSection sectionId l = Some s -> In s l /\ Section.id s = sectionId.
Proof.
  intros H. apply List.find_some in H as [Hin Hid]. split; [exact Hin|].
  now apply eqb_string_eq.
Qed.




(** ** All or nothing *)


Lemma in_availableDoctors did w :
  In did (map StaffMember.id (availableDoctors w)) ->
  exists d, In d (staff w) /\ StaffMember.id d = did /\ isNurse d = false
            /\ ~ In did (map Patient.assignedDoctorId (admittedPatients w)).
Proof.
  intros H. apply in_map_iff in H as (d & Hid & Hd).
  apply List.filter_In in Hd as [Hin Hf]. apply andb_true_iff in Hf as [Hn Ha].
  exists d. repeat split; auto.
  - now apply negb_true_iff.
  - intros Hc. subst did. apply not_in_assigned_set in Hc.
    unfold assignedDoctorIds in Ha. congruence.
Qed.

Lemma in_availableNurses nid w :
  In nid (map StaffMember.id (availableNurses w)) ->
  exists n, In n (staff w) /\ StaffMember.id n = nid /\ isNurse n = true
            /\ ~ In nid (map Patient.assignedNurseId (admittedPatients w)).
Proof.
  intros H. apply in_map_iff in H as (n & Hid & Hn).
  apply List.filter_In in Hn as [Hin Hf]. apply andb_true_iff in Hf as [Hr Ha].
  exists n. repeat split; auto.
  intros Hc. subst nid. apply not_in_assigned_set in Hc.
  unfold assignedNurseIds in Ha. congruence.
Qed.



(** ** Loading the configuration *)

Example orEmptyArray_defaults :
  map orEmptyArray [None; Some JNull; Some (JNumber 0); Some (JArray [JNumber 1])]
  = [JArray []; JArray []; JArray []; JArray [JNumber 1]].
Proof. reflexivity. Qed.

(** C8, as the claim states it, fails: the stored text [null] is present
    and parses, and the result is the first-run state. *)
Lemma getInitialState_null_is_first_run :
  ~ loadsByParse {[ "hospital_config" := Stringified JNull ]}.
Proof.
  unfold loadsByParse. rewrite lookup_singleton_eq. simpl.
  vm_compute. discriminate.
Qed.

(** C8, amended. [getInitialState] returns for every store; an exception
    inside it ends in the first-run state.  When the configuration key is
    absent, or its text is empty, fails to parse or parses to [null], the
    result is the first-run state with empty sections and empty staff.
    When the text parses to any other value, the result is not first-run
    and holds the stored sections and staff, a missing or falsy field
    giving the empty list. *)
Theorem getInitialState_cases (store : gmap string Text) :
  (getInitialState_try store = inl tt -> getInitialState store = firstRun)
  /\
  (store !! "hospital_config" = None
   \/ store !! "hospital_config" = Some EmptyText
   \/ store !! "hospital_config" = Some Malformed
   \/ store !! "hospital_config" = Some (Stringified JNull) ->
   getInitialState store = firstRun)
  /\
  (forall v,
      store !! "hospital_config" = Some (Stringified v) -> v <> JNull ->
      getInitialState store = loaded v).
Proof.
  unfold getInitialState, getInitialState_try. repeat split.
  - intros H. cbv zeta in H. now rewrite H.
  - intros [H|[H|[H|H]]]; rewrite H; reflexivity.
  - intros v H Hv. rewrite H. simpl.
    destruct v; try contradiction; reflexivity.
Qed.

Lemma getInitialState_cases_witness :
  let store : gmap string Text :=
    {[ "hospital_config" :=
         Stringified (JObject [("sections", JArray [JString "ward"])]) ]} in
  store !! "hospital_config"
    = Some (Stringified (JObject [("sections", JArray [JString "ward"])]))
  /\ getInitialState store
     = {| init_sections := JArray [JString "ward"]; init_staff := JArray [];
          isInitialSetup := false |}
  /\ getInitialState (∅ : gmap string Text) = firstRun.
Proof.
  intros store.
  assert (H : store !! "hospital_config"
              = Some (Stringified (JObject [("sections", JArray [JString "ward"])]))).
  { apply lookup_singleton_eq. }
  split; [exact H|]. split.
  - rewrite (proj2 (proj2 (getInitialState_cases store)) _ H); [reflexivity|discriminate].
  - apply (proj1 (proj2 (getInitialState_cases ∅))). left. apply lookup_empty.
Defined.

(** ** Notification fan-out *)

#[local] Arguments newNotification : simpl never.
#[local] Arguments notificationKey : simpl never.
#[local] Arguments Notification_json.encode : simpl never.

Lemma append_inj_l (a b c : string) : (a ++ b)%string = (a ++ c)%string -> b = c.
Proof.
  induction a as [|ch a IH]; simpl; [auto|]. intros [= H]. auto.
Qed.

Lemma notificationKey_inj a b : notificationKey a = notificationKey b -> a = b.
Proof. apply append_inj_l. Qed.

Lemma findStaff_some staffId l m :
  findStaff staffId l = Some m -> In m l /\ StaffMember.id m = staffId.
Proof.
  intros H. apply List.find_some in H as [Hin Hid]. split; [exact Hin|].
  now apply eqb_string_eq.
Qed.

Lemma createNotification_try_spec env staffId p store :
  createNotification_try env staffId p store =
    if readable (store !! notificationKey staffId) && setItem_accepts env then
      Some (<[ notificationKey staffId :=
                 Stringified
                   (JArray (notificationsOf store staffId
                              ++ [Notification_json.encode (newNotification env p)])) ]>
              store)
    else None.
Proof.
  unfold createNotification_try, notificationsOf, setItem.
  destruct (store !! notificationKey staffId) as [[| |[]]|]; simpl;
    try reflexivity; now destruct (setItem_accepts env).
Qed.

Lemma storeAfter_lookup env staffId p members store key :
  storeAfter env staffId p members store !! key =
    if match findStaff staffId members with Some _ => true | None => false end
       && readable (store !! notificationKey staffId) && setItem_accepts env
       && bool_decide (key = notificationKey staffId)
    then Some (Stringified
                 (JArray (notificationsOf store staffId
                            ++ [Notification_json.encode (newNotification env p)])))
    else store !! key.
Proof.
  unfold storeAfter.
  destruct (findStaff staffId members) as [m|] eqn:Hm; [|reflexivity].
  destruct (findStaff_some _ _ _ Hm) as [_ ->].
  rewrite createNotification_try_spec. cbn [andb].
  destruct (readable (store !! notificationKey staffId) && setItem_accepts env);
    [|reflexivity].
  cbn [andb]. case_bool_decide as Hk.
  - subst key. apply lookup_insert_eq.
  - apply lookup_insert_ne. congruence.
Qed.

Lemma storeAfter_notifications env assignedId p members store staffId :
  notificationsOf (storeAfter env assignedId p members store) staffId =
    notificationsOf store staffId
      ++ posted env p
           (match findStaff assignedId members with Some _ => true | None => false end
            && readable (store !! notificationKey assignedId) && setItem_accepts env)
           assignedId staffId.
Proof.
  unfold notificationsOf at 1. rewrite storeAfter_lookup. unfold posted.
  destruct (match findStaff assignedId members with Some _ => true | None => false end
            && readable (store !! notificationKey assignedId) && setItem_accepts env);
    cbn [andb].
  - case_bool_decide as Hk.
    + apply notificationKey_inj in Hk. subst staffId. now rewrite String.eqb_refl.
    + destruct (staffId =? assignedId) eqn:He.
      * apply eqb_string_eq in He. subst. contradiction.
      * rewrite app_nil_r. reflexivity.
  - rewrite app_nil_r. reflexivity.
Qed.

Lemma storeAfter_readable env assignedId p members store staffId :
  readable (storeAfter env assignedId p members store !! notificationKey staffId)
  = readable (store !! notificationKey staffId).
Proof.
  rewrite storeAfter_lookup.
  destruct (match findStaff assignedId members with Some _ => true | None => false end);
    cbn [andb]; [|reflexivity].
  destruct (readable (store !! notificationKey assignedId)) eqn:Hr;
    cbn [andb]; [|reflexivity].
  destruct (setItem_accepts env); cbn [andb]; [|reflexivity].
  case_bool_decide as Hk; [|reflexivity].
  rewrite Hk, Hr. reflexivity.
Qed.

Lemma localStorage_notifyIfFound env staffId p w :
  localStorage (notifyIfFound env (findStaff staffId (staff w)) p w)
  = storeAfter env staffId p (staff w) (localStorage w).
Proof.
  unfold notifyIfFound, storeAfter, createNotification.
  destruct (findStaff staffId (staff w)); [|reflexivity].
  now destruct (createNotification_try _ _ _ _).
Qed.

Lemma localStorage_committed env patientData s p w :
  localStorage (committed env patientData s p w)
  = storeAfter (nurseEnv env) (Patient.assignedNurseId p) p (staff w)
      (storeAfter (doctorEnv env) (Patient.assignedDoctorId p) p (staff w)
         (localStorage w)).
Proof.
  unfold committed. simpl.
  set (w1 := setAdmittedPatients (fun prev => prev ++ [p]) (entered w)).
  set (w2 := notifyIfFound (doctorEnv env)
               (findStaff (Patient.assignedDoctorId p) (staff w)) p w1).
  assert (Hst : staff w2 = staff w).
  { unfold w2. now destruct (notifyIfFound_fields (doctorEnv env)
      (findStaff (Patient.assignedDoctorId p) (staff w)) p w1) as (_ & -> & _). }
  rewrite <- Hst at 1. rewrite localStorage_notifyIfFound. rewrite Hst.
  unfold w2. change (staff w) with (staff w1) at 2.
  rewrite localStorage_notifyIfFound. reflexivity.
Qed.

(** C7, as the claim states it, fails: the resolver names a nurse id that
    no member of staff carries; the patient is admitted and the doctor is
    notified, and nothing is stored for the nurse id. *)
Lemma admission_without_nurse_notification :
  ~ notifiesBoth Demo.hospital
      (settle (Demo.answer "s1" "d1" "phantom")
         (handleAdmitPatient (Demo.env 1700000000000) Demo.alice Demo.hospital)).
Proof.
  intros H.
  destruct (H (mkPatient (Demo.env 1700000000000) Demo.alice "s1" "d1" "phantom")
              eq_refl) as [_ [n Hn]].
  vm_compute in Hn. discriminate.
Qed.

(** C7, amended. On every successful admission the store changes only by
    notifications of the new patient.  The assigned doctor's notification
    is created when the doctor id is that of a member of the staff list,
    the text stored under that member's key is absent, empty or an array,
    and the store accepts the write; likewise for the assigned nurse.  A
    notification that is created is appended to the member's stored list
    after all the notifications stored before.  The patient is admitted
    whether or not the notifications are created, each of the two is
    created or not on its own conditions, and every key that receives no
    notification keeps its text. *)
Theorem notification_fanout env patientData w outcome :
  admittedPatients (settle outcome (handleAdmitPatient env patientData w))
    <> admittedPatients w ->
  exists p,
    admittedPatients (settle outcome (handleAdmitPatient env patientData w))
      = admittedPatients w ++ [p] /\
    (forall staffId,
        notificationsOf
          (localStorage (settle outcome (handleAdmitPatient env patientData w))) staffId
        = notificationsOf (localStorage w) staffId
            ++ posted (doctorEnv env) p
                 (delivers (doctorEnv env) (Patient.assignedDoctorId p) w)
                 (Patient.assignedDoctorId p) staffId
            ++ posted (nurseEnv env) p
                 (delivers (nurseEnv env) (Patient.assignedNurseId p) w)
                 (Patient.assignedNurseId p) staffId) /\
    (forall key,
        delivers (doctorEnv env) (Patient.assignedDoctorId p) w = false
        \/ key <> notificationKey (Patient.assignedDoctorId p) ->
        delivers (nurseEnv env) (Patient.assignedNurseId p) w = false
        \/ key <> notificationKey (Patient.assignedNurseId p) ->
        localStorage (settle outcome (handleAdmitPatient env patientData w)) !! key
        = localStorage w !! key).
Proof.
  intros Hchanged.
  destruct (admit_cases env patientData w outcome)
    as [(sectionId & doctorId & nurseId & s & _ & _ & Heq)|[msg Heq]];
    rewrite Heq in *; [|now destruct Hchanged].
  set (p := mkPatient env patientData sectionId doctorId nurseId).
  exists p. split; [apply committed_fields|]. rewrite localStorage_committed.
  unfold delivers. split.
  - intros staffId. rewrite !storeAfter_notifications, storeAfter_readable.
    now rewrite app_assoc.
  - intros key Hd Hn.
    assert (Hoff : forall b k, b = false \/ key <> k -> b && bool_decide (key = k) = false).
    { intros b k [->|Hk]; [reflexivity|]. rewrite bool_decide_eq_false_2 by exact Hk.
      apply andb_false_r. }
    rewrite storeAfter_lookup, storeAfter_readable, (Hoff _ _ Hn).
    rewrite storeAfter_lookup, (Hoff _ _ Hd). reflexivity.
Qed.

Lemma notification_fanout_witness :
  admittedPatients
    (settle (Demo.answer "s1" "d1" "n1")
       (handleAdmitPatient (Demo.env 1700000000000) Demo.alice Demo.hospital))
    <> admittedPatients Demo.hospital
  /\ exists p,
       admittedPatients
         (settle (Demo.answer "s1" "d1" "n1")
            (handleAdmitPatient (Demo.env 1700000000000) Demo.alice Demo.hospital))
         = admittedPatients Demo.hospital ++ [p].
Proof.
  assert (H : admittedPatients
                (settle (Demo.answer "s1" "d1" "n1")
                   (handleAdmitPatient (Demo.env 1700000000000) Demo.alice Demo.hospital))
              <> admittedPatients Demo.hospital).
  { vm_compute. discriminate. }
  split; [exact H|].
  destruct (notification_fanout (Demo.env 1700000000000) Demo.alice Demo.hospital
              (Demo.answer "s1" "d1" "n1") H) as (p & Hp & _).
  exists p. exact Hp.
Defined.

Example fanout_alice :
  let w := settle (Demo.answer "s1" "d1" "n1")
             (handleAdmitPatient (Demo.env 1700000000000) Demo.alice Demo.hospital) in
  map length [notificationsOf (localStorage w) "d1";
              notificationsOf (localStorage w) "n1";
              notificationsOf (localStorage w) "d2"]
  = [1; 1; 0]%nat.
Proof. vm_compute. reflexivity. Qed.

(** ** Capacity *)

Lemma NoDup_map_eq {A B} (f : A -> B) (l : list A) x y :
  List.NoDup (map f l) -> In x l -> In y l -> f x = f y -> x = y.
Proof.
  induction l as [|a l IH]; simpl; [intros _ []|].
  intros Hnd Hx Hy Hf. inversion Hnd as [|b m Hnotin Hnd']; subst.
  destruct Hx as [->|Hx], Hy as [->|Hy]; auto.
  - exfalso. apply Hnotin. rewrite Hf. now apply in_map.
  - exfalso. apply Hnotin. rewrite <- Hf. now apply in_map.
Qed.


Lemma patientsIn_filter sectionId g l :
  (patientsIn sectionId (List.filter g l) <= patientsIn sectionId l)%nat.
Proof. apply filter_filter_length_le. Qed.


Lemma step_sections w op : sections (step w op) = sections w.
Proof.
  destruct op as [env patientData outcome|now patientId]; simpl.
  - destruct (admit_cases env patientData w outcome)
      as [(sectionId & doctorId & nurseId & s & _ & _ & ->)|[msg ->]].
    + apply committed_fields.
    + reflexivity.
  - apply discharge_fields.
Qed.

Lemma step_staff w op : staff (step w op) = staff w.
Proof.
  destruct op as [env patientData outcome|now patientId]; simpl.
  - destruct (admit_cases env patientData w outcome)
      as [(sectionId & doctorId & nurseId & s & _ & _ & ->)|[msg ->]].
    + apply committed_fields.
    + reflexivity.
  - apply discharge_fields.
Qed.


Lemma run_sections ops w : sections (run ops w) = sections w.
Proof.
  revert w. induction ops as [|op ops IH]; intros w; simpl; [reflexivity|].
  unfold run in *. simpl. rewrite IH. apply step_sections.
Qed.

Lemma run_staff ops w : staff (run ops w) = staff w.
Proof.
  revert w. induction ops as [|op ops IH]; intros w; simpl; [reflexivity|].
  unfold run in *. simpl. rewrite IH. apply step_staff.
Qed.




Example third_admission_finds_ward_full :
  length
    (admittedPatients
       (run [AdmitOp (Demo.env 1700000000000) Demo.alice (Demo.answer "s1" "d1" "n1");
             AdmitOp (Demo.env 1700000000001) Demo.bob (Demo.answer "s1" "d1" "n1");
             AdmitOp (Demo.env 1700000000002) Demo.bob (Demo.answer "s1" "d2" "n2")]
          Demo.hospital)) = 2%nat.
Proof. vm_compute. reflexivity. Qed.

(** ** Staff exclusivity *)

Lemma NoDup_snoc {A} (l : list A) x :
  List.NoDup l -> ~ In x l -> List.NoDup (l ++ [x]).
Proof.
  induction l as [|a l IH]; simpl; intros Hnd Hx.
  - constructor; [intros []|constructor].
  - inversion Hnd as [|b m Hnotin Hnd']; subst. constructor.
    + rewrite in_app_iff. simpl. intros [H|[H|[]]]; [auto|]. subst. auto.
    + apply IH; auto.
Qed.

Lemma NoDup_map_filter {A B} (f : A -> B) (g : A -> bool) (l : list A) :
  List.NoDup (map f l) -> List.NoDup (map f (List.filter g l)).
Proof.
  induction l as [|a l IH]; simpl; intros Hnd; [constructor|].
  inversion Hnd as [|b m Hnotin Hnd']; subst.
  destruct (g a); simpl; [|auto]. constructor; [|auto].
  intros Hin. apply Hnotin. apply in_map_iff in Hin as (y & Hy & Hin).
  apply List.filter_In in Hin as [Hin _]. apply in_map_iff. eauto.
Qed.



Lemma Staffed_empty w : admittedPatients w = [] -> Staffed w.
Proof.
  intros H. split; rewrite H; simpl; try constructor; intros p [].
Qed.

Lemma Staffed_step w op : opObeys w op -> Staffed w -> Staffed (step w op).
Proof.
  intros Hob [Hd Hn Hds Hns].
  destruct op as [env patientData outcome|now patientId]; simpl in *.
  - destruct (admit_cases env patientData w outcome)
      as [(sectionId & doctorId & nurseId & s & _ & Hacc & ->)|[msg ->]];
      [|split; assumption].
    destruct Hacc as (assignment & -> & Hids & _).
    destruct (Hob _ _ _ _ eq_refl Hids) as [Hdoc Hnur].
    destruct (in_availableDoctors _ _ Hdoc) as (d & Hdin & Hdid & Hdrole & Hdfree).
    destruct (in_availableNurses _ _ Hnur) as (n & Hnin & Hnid & Hnrole & Hnfree).
    destruct (committed_fields env patientData s
                (mkPatient env patientData sectionId doctorId nurseId) w)
      as (_ & Hst & Hadm & _).
    split; rewrite ?Hadm, ?Hst.
    + rewrite map_app. simpl. now apply NoDup_snoc.
    + rewrite map_app. simpl. now apply NoDup_snoc.
    + intros p Hp. apply in_app_iff in Hp as [Hp|[<-|[]]]; [auto|].
      exists d. simpl. auto.
    + intros p Hp. apply in_app_iff in Hp as [Hp|[<-|[]]]; [auto|].
      exists n. simpl. auto.
  - destruct (discharge_fields now patientId w) as (_ & Hst & _).
    split; rewrite ?discharge_admitted, ?Hst.
    + now apply NoDup_map_filter.
    + now apply NoDup_map_filter.
    + intros p Hp. apply List.filter_In in Hp as [Hp _]. auto.
    + intros p Hp. apply List.filter_In in Hp as [Hp _]. auto.
Qed.

Lemma Staffed_run ops w : obeys w ops -> Staffed w -> Staffed (run ops w).
Proof.
  revert w. induction ops as [|op ops IH]; intros w Hob Hst; [exact Hst|].
  destruct Hob as [Hop Hrest]. unfold run in *. simpl.
  apply IH; [exact Hrest|]. now apply Staffed_step.
Qed.






Example two_admissions_two_teams :
  map (fun p => (Patient.assignedDoctorId p, Patient.assignedNurseId p))
    (admittedPatients
       (run [AdmitOp (Demo.env 1700000000000) Demo.alice (Demo.answer "s1" "d1" "n1");
             AdmitOp (Demo.env 1700000000001) Demo.bob (Demo.answer "s1" "d2" "n2")]
          Demo.hospital))
  = [("d1", "n1"); ("d2", "n2")].
Proof. vm_compute. reflexivity. Qed.

(** ** Resolvers as functions *)

(** Running an admission against a resolver function is settling it with
    some outcome, so what holds for every outcome holds for every
    resolver. *)
Lemma admitWith_settles resolver env patientData w :
  exists outcome,
    admitWith resolver env patientData w
    = settle outcome (handleAdmitPatient env patientData w).
Proof.
  unfold admitWith, settle.
  destruct (handleAdmitPatient env patientData w) as [w'|request k].
  - exists Rejects. reflexivity.
  - exists (resolver request). reflexivity.
Qed.

Example request_lists_candidates :
  match handleAdmitPatient (Demo.env 1700000000000) Demo.alice Demo.hospital with
  | AwaitResolver request _ =>
      (map Section.id (Request.availableSections request),
       map StaffMember.id (Request.availableDoctors request),
       map StaffMember.id (Request.availableNurses request))
      = (["s1"], ["d1"; "d2"], ["n1"; "n2"])
  | Finished _ => False
  end.
Proof. vm_compute. reflexivity. Qed.

(** * Further properties of the two workflows *)

Lemma createNotification_view env staffId p w :
  appState (createNotification env staffId p w) = appState w /\
  isAdmissionModalOpen (createNotification env staffId p w) = isAdmissionModalOpen w /\
  isLoading (createNotification env staffId p w) = isLoading w.
Proof.
  unfold createNotification.
  destruct (createNotification_try _ _ _ _); repeat split.
Qed.

Lemma notifyIfFound_view env m p w :
  appState (notifyIfFound env m p w) = appState w /\
  isAdmissionModalOpen (notifyIfFound env m p w) = isAdmissionModalOpen w /\
  isLoading (notifyIfFound env m p w) = isLoading w.
Proof.
  destruct m; [apply createNotification_view|repeat split].
Qed.

Lemma committed_view env patientData s p w :
  appState (committed env patientData s p w) = appState w /\
  isAdmissionModalOpen (committed env patientData s p w) = false /\
  isLoading (committed env patientData s p w) = false.
Proof.
  unfold committed. cbn [setIsLoading toast appState isAdmissionModalOpen isLoading].
  destruct (notifyIfFound_view (nurseEnv env)
              (findStaff (Patient.assignedNurseId p) (staff w)) p
              (notifyIfFound (doctorEnv env)
                 (findStaff (Patient.assignedDoctorId p) (staff w)) p
                 (setAdmittedPatients (fun prev => prev ++ [p]) (entered w))))
    as (-> & -> & _).
  destruct (notifyIfFound_view (doctorEnv env)
              (findStaff (Patient.assignedDoctorId p) (staff w)) p
              (setAdmittedPatients (fun prev => prev ++ [p]) (entered w)))
    as (-> & -> & _).
  repeat split.
Qed.

(** X1. However an admission ends (rejected up front, resolver failure,
    unusable answer, section found full, or patient admitted), the loading
    overlay is off and the admission dialog is closed afterwards, and the
    view shown is the one shown before. *)
Theorem admission_ends_idle env patientData w outcome :
  isLoading (settle outcome (handleAdmitPatient env patientData w)) = false /\
  isAdmissionModalOpen (settle outcome (handleAdmitPatient env patientData w)) = false /\
  appState (settle outcome (handleAdmitPatient env patientData w)) = appState w.
Proof.
  destruct (admit_cases env patientData w outcome)
    as [(sectionId & doctorId & nurseId & s & _ & _ & ->)|[msg ->]].
  - pose proof (committed_view env patientData s
                  (mkPatient env patientData sectionId doctorId nurseId) w).
    tauto.
  - repeat split.
Qed.

Lemma admit_try_accepted env patientData w outcome sectionId doctorId nurseId s :
  accepted w outcome sectionId doctorId nurseId s ->
  admit_after (admit_try env patientData outcome (entered w))
  = committed env patientData s (mkPatient env patientData sectionId doctorId nurseId) w.
Proof.
  intros (assignment & -> & Hids & Hs & Hroom).
  unfold admit_try. rewrite Hids.
  change (sections (entered w)) with (sections w).
  change (admittedPatients (entered w)) with (admittedPatients w).
  rewrite Hs.
  destruct (Section.capacity s <=? Z.of_nat (patientsIn sectionId (admittedPatients w)))%Z
    eqn:Hfull.
  - apply Z.leb_le in Hfull. lia.
  - reflexivity.
Qed.

Lemma offered_section_found w sectionId :
  List.NoDup (map Section.id (sections w)) ->
  In sectionId (map Section.id (availableSections w)) ->
  exists s,
    findSection sectionId (sections w) = Some s /\
    (Z.of_nat (patientsIn sectionId (admittedPatients w)) < Section.capacity s)%Z.
Proof.
  intros Hnd Hin. apply in_map_iff in Hin as (s & Hid & Hs).
  apply List.filter_In in Hs as [Hs Hfree]. simpl in Hfree. apply Z.ltb_lt in Hfree.
  destruct (findSection sectionId (sections w)) as [s'|] eqn:Hf.
  - destruct (findSection_some _ _ _ Hf) as [Hin' Hid'].
    assert (s' = s) as ->.
    { apply (NoDup_map_eq Section.id (sections w)); auto. congruence. }
    exists s. split; [reflexivity|]. now rewrite <- Hid.
  - apply find_none_iff in Hf. rewrite List.Forall_forall in Hf.
    specialize (Hf s Hs). simpl in Hf. apply eqb_string_neq in Hf. contradiction.
Qed.

(** X2. When the section ids of the configuration are pairwise distinct
    and the resolver answers with three non-empty ids that name a section,
    a doctor and a nurse among the candidates of the request, the checks
    made after the call let the answer through: the patient is admitted
    with exactly these three ids. *)
Theorem candidate_answer_is_admitted env patientData w assignment
    sectionId doctorId nurseId :
  List.NoDup (map Section.id (sections w)) ->
  assignmentIds assignment = Some (sectionId, doctorId, nurseId) ->
  In sectionId (map Section.id (availableSections w)) ->
  In doctorId (map StaffMember.id (availableDoctors w)) ->
  In nurseId (map StaffMember.id (availableNurses w)) ->
  admittedPatients (settle (Resolves assignment) (handleAdmitPatient env patientData w))
  = admittedPatients w ++ [mkPatient env patientData sectionId doctorId nurseId].
Proof.
  intros Hnd Hids Hsec Hdoc Hnur.
  destruct (offered_section_found w sectionId Hnd Hsec) as (s & Hfind & Hroom).
  rewrite admit_preflight.
  destruct (length (availableSections w) =? 0)%nat eqn:Hs.
  { apply length_zero_nil in Hs. rewrite Hs in Hsec. destruct Hsec. }
  destruct (length (availableDoctors w) =? 0)%nat eqn:Hd.
  { apply length_zero_nil in Hd. rewrite Hd in Hdoc. destruct Hdoc. }
  destruct (length (availableNurses w) =? 0)%nat eqn:Hn.
  { apply length_zero_nil in Hn. rewrite Hn in Hnur. destruct Hnur. }
  cbn [settle].
  rewrite (admit_try_accepted env patientData w (Resolves assignment)
             sectionId doctorId nurseId s).
  - apply committed_fields.
  - exists assignment. auto.
Qed.

Lemma candidate_answer_is_admitted_witness :
  List.NoDup (map Section.id (sections Demo.hospital))
  /\ In "s1" (map Section.id (availableSections Demo.hospital))
  /\ admittedPatients
       (settle (Demo.answer "s1" "d2" "n2")
          (handleAdmitPatient (Demo.env 1700000000000) Demo.alice Demo.hospital))
     = admittedPatients Demo.hospital
         ++ [mkPatient (Demo.env 1700000000000) Demo.alice "s1" "d2" "n2"].
Proof.
  assert (H1 : List.NoDup (map Section.id (sections Demo.hospital))).
  { simpl. constructor; [intros []|constructor]. }
  assert (H2 : In "s1" (map Section.id (availableSections Demo.hospital))).
  { vm_compute. tauto. }
  split; [exact H1|]. split; [exact H2|].
  apply (candidate_answer_is_admitted (Demo.env 1700000000000) Demo.alice
           Demo.hospital
           (Some (AssignmentResponse.mk (Some "s1") (Some "d2") (Some "n2")
                    (Some "best match")))
           "s1" "d2" "n2" H1 eq_refl H2).
  - vm_compute. tauto.
  - vm_compute. tauto.
Defined.

Lemma find_app_none {A} (f : A -> bool) (l : list A) x :
  Forall (fun y => f y = false) l -> f x = true -> List.find f (l ++ [x]) = Some x.
Proof.
  induction 1 as [|a l Ha _ IH]; simpl; intros Hx.
  - now rewrite Hx.
  - rewrite Ha. auto.
Qed.

Lemma filter_app_last {A} (f : A -> bool) (l : list A) x :
  Forall (fun y => f y = true) l -> f x = false -> List.filter f (l ++ [x]) = l.
Proof.
  intros Hl Hx. rewrite List.filter_app, (filter_all_true _ _ Hl). simpl.
  rewrite Hx. apply app_nil_r.
Qed.

(** X3. Admitting a patient and then discharging the id the admission
    gave it undoes the admission on the admitted collection, provided no
    patient admitted before carried that id: the collection is again what
    it was, and the patient heads the discharged collection with the
    discharge time set. *)
Theorem admit_then_discharge env patientData w outcome now :
  admittedPatients (settle outcome (handleAdmitPatient env patientData w))
    <> admittedPatients w ->
  (forall q, In q (admittedPatients w) -> Patient.id q <> patientIdAt (Date_now env)) ->
  exists p,
    admittedPatients (settle outcome (handleAdmitPatient env patientData w))
      = admittedPatients w ++ [p] /\
    Patient.id p = patientIdAt (Date_now env) /\
    admittedPatients
      (handleDischargePatient now (patientIdAt (Date_now env))
         (settle outcome (handleAdmitPatient env patientData w)))
      = admittedPatients w /\
    dischargedPatients
      (handleDischargePatient now (patientIdAt (Date_now env))
         (settle outcome (handleAdmitPatient env patientData w)))
      = Patient.withDischargeDate p now :: dischargedPatients w.
Proof.
  intros Hchanged Hfresh.
  destruct (admit_cases env patientData w outcome)
    as [(sectionId & doctorId & nurseId & s & _ & _ & Heq)|[msg Heq]];
    rewrite Heq in *; [|now destruct Hchanged].
  set (p := mkPatient env patientData sectionId doctorId nurseId).
  set (w' := committed env patientData s p w).
  destruct (committed_fields env patientData s p w) as (_ & _ & Hadm & Hdis).
  fold w' in Hadm, Hdis.
  assert (Hold : Forall (fun q => hasId (patientIdAt (Date_now env)) q = false)
                   (admittedPatients w)).
  { apply List.Forall_forall. intros q Hq. apply eqb_string_neq. auto. }
  assert (Hp : hasId (patientIdAt (Date_now env)) p = true).
  { apply eqb_string_eq. reflexivity. }
  exists p. split; [exact Hadm|]. split; [reflexivity|]. split.
  - rewrite discharge_admitted, Hadm. apply filter_app_last.
    + eapply List.Forall_impl; [|exact Hold]. intros q Hq. unfold keepsOthers.
      now rewrite Hq.
    + unfold keepsOthers. now rewrite Hp.
  - assert (Hfind : List.find (hasId (patientIdAt (Date_now env))) (admittedPatients w')
                    = Some p).
    { rewrite Hadm. now apply find_app_none. }
    rewrite (discharge_found _ _ _ _ Hfind).
    unfold toast, setDischargedPatients, setAdmittedPatients.
    cbn [dischargedPatients]. now rewrite Hdis.
Qed.

Lemma admit_then_discharge_witness :
  admittedPatients
    (settle (Demo.answer "s1" "d1" "n1")
       (handleAdmitPatient (Demo.env 1700000000000) Demo.alice Demo.hospital))
    <> admittedPatients Demo.hospital
  /\ (forall q, In q (admittedPatients Demo.hospital) ->
                Patient.id q <> patientIdAt (Date_now (Demo.env 1700000000000)))
  /\ exists p,
       admittedPatients
         (settle (Demo.answer "s1" "d1" "n1")
            (handleAdmitPatient (Demo.env 1700000000000) Demo.alice Demo.hospital))
         = admittedPatients Demo.hospital ++ [p] /\
       Patient.id p = patientIdAt (Date_now (Demo.env 1700000000000)) /\
       admittedPatients
         (handleDischargePatient "2024-01-02T08:00:00.000Z"
            (patientIdAt (Date_now (Demo.env 1700000000000)))
            (settle (Demo.answer "s1" "d1" "n1")
               (handleAdmitPatient (Demo.env 1700000000000) Demo.alice Demo.hospital)))
         = admittedPatients Demo.hospital /\
       dischargedPatients
         (handleDischargePatient "2024-01-02T08:00:00.000Z"
            (patientIdAt (Date_now (Demo.env 1700000000000)))
            (settle (Demo.answer "s1" "d1" "n1")
               (handleAdmitPatient (Demo.env 1700000000000) Demo.alice Demo.hospital)))
         = Patient.withDischargeDate p "2024-01-02T08:00:00.000Z"
             :: dischargedPatients Demo.hospital.
Proof.
  assert (H1 : admittedPatients
                 (settle (Demo.answer "s1" "d1" "n1")
                    (handleAdmitPatient (Demo.env 1700000000000) Demo.alice Demo.hospital))
               <> admittedPatients Demo.hospital).
  { vm_compute. discriminate. }
  assert (H2 : forall q, In q (admittedPatients Demo.hospital) ->
                         Patient.id q <> patientIdAt (Date_now (Demo.env 1700000000000))).
  { intros q []. }
  split; [exact H1|]. split; [exact H2|].
  exact (admit_then_discharge (Demo.env 1700000000000) Demo.alice Demo.hospital
           (Demo.answer "s1" "d1" "n1") "2024-01-02T08:00:00.000Z" H1 H2).
Defined.

(** ** Discharge and the candidate lists *)

Lemma discharge_doctor_ids now patientId w x :
  In x (map Patient.assignedDoctorId
          (admittedPatients (handleDischargePatient now patientId w))) ->
  In x (map Patient.assignedDoctorId (admittedPatients w)).
Proof.
  rewrite discharge_admitted. intros H. apply in_map_iff in H as (q & Hq & Hin).
  apply List.filter_In in Hin as [Hin _]. apply in_map_iff. eauto.
Qed.

Lemma discharge_nurse_ids now patientId w x :
  In x (map Patient.assignedNurseId
          (admittedPatients (handleDischargePatient now patientId w))) ->
  In x (map Patient.assignedNurseId (admittedPatients w)).
Proof.
  rewrite discharge_admitted. intros H. apply in_map_iff in H as (q & Hq & Hin).
  apply List.filter_In in Hin as [Hin _]. apply in_map_iff. eauto.
Qed.

Lemma in_availableDoctors_iff d w :
  In d (availableDoctors w) <->
  In d (staff w) /\ isNurse d = false
  /\ ~ In (StaffMember.id d) (map Patient.assignedDoctorId (admittedPatients w)).
Proof.
  unfold availableDoctors, assignedDoctorIds.
  rewrite List.filter_In, andb_true_iff, negb_true_iff, negb_true_iff.
  rewrite <- (in_assigned_set (StaffMember.id d)).
  destruct (bool_decide _); intuition congruence.
Qed.

Lemma in_availableNurses_iff n w :
  In n (availableNurses w) <->
  In n (staff w) /\ isNurse n = true
  /\ ~ In (StaffMember.id n) (map Patient.assignedNurseId (admittedPatients w)).
Proof.
  unfold availableNurses, assignedNurseIds.
  rewrite List.filter_In, andb_true_iff, negb_true_iff.
  rewrite <- (in_assigned_set (StaffMember.id n)).
  destruct (bool_decide _); intuition congruence.
Qed.

Lemma in_availableSections_iff s w :
  In s (availableSections w) <->
  In s (sections w)
  /\ (Z.of_nat (patientsIn (Section.id s) (admittedPatients w)) < Section.capacity s)%Z.
Proof.
  unfold availableSections. rewrite List.filter_In. simpl. now rewrite Z.ltb_lt.
Qed.

(** X4. A discharge never takes a candidate away: every section with a
    free bed, every unassigned doctor and every unassigned nurse before
    the discharge is still one after it. *)
Theorem discharge_keeps_candidates now patientId w :
  (forall s, In s (availableSections w) ->
             In s (availableSections (handleDischargePatient now patientId w)))
  /\ (forall d, In d (availableDoctors w) ->
                In d (availableDoctors (handleDischargePatient now patientId w)))
  /\ (forall n, In n (availableNurses w) ->
                In n (availableNurses (handleDischargePatient now patientId w))).
Proof.
  destruct (discharge_fields now patientId w) as (Hsec & Hst & _).
  repeat split.
  - intros s Hs. apply in_availableSections_iff in Hs as [Hin Hfree].
    apply in_availableSections_iff. rewrite Hsec. split; [exact Hin|].
    rewrite discharge_admitted.
    pose proof (patientsIn_filter (Section.id s) (keepsOthers patientId)
                  (admittedPatients w)).
    lia.
  - intros d Hd. apply in_availableDoctors_iff in Hd as (Hin & Hrole & Hfree).
    apply in_availableDoctors_iff. rewrite Hst. repeat split; auto.
    intros Hc. apply Hfree. eapply discharge_doctor_ids; eauto.
  - intros n Hn. apply in_availableNurses_iff in Hn as (Hin & Hrole & Hfree).
    apply in_availableNurses_iff. rewrite Hst. repeat split; auto.
    intros Hc. apply Hfree. eapply discharge_nurse_ids; eauto.
Qed.

(** X5. A discharge frees the staff of the patients it removes: a member
    of staff whose role is not nurse and whose id is the doctor id only of
    admitted patients carrying the discharged id is an unassigned doctor
    afterwards; likewise a nurse whose id is the nurse id only of such
    patients is an unassigned nurse afterwards. *)
Theorem discharge_frees_staff now patientId w :
  (forall d,
      In d (staff w) -> isNurse d = false ->
      (forall q, In q (admittedPatients w) ->
                 Patient.assignedDoctorId q = StaffMember.id d ->
                 Patient.id q = patientId) ->
      In d (availableDoctors (handleDischargePatient now patientId w)))
  /\
  (forall n,
      In n (staff w) -> isNurse n = true ->
      (forall q, In q (admittedPatients w) ->
                 Patient.assignedNurseId q = StaffMember.id n ->
                 Patient.id q = patientId) ->
      In n (availableNurses (handleDischargePatient now patientId w))).
Proof.
  destruct (discharge_fields now patientId w) as (_ & Hst & _).
  split.
  - intros d Hin Hrole Honly. apply in_availableDoctors_iff.
    rewrite Hst. repeat split; auto.
    rewrite discharge_admitted. intros Hc.
    apply in_map_iff in Hc as (q & Hq & Hqin).
    apply List.filter_In in Hqin as [Hqin Hkeep].
    apply keepsOthers_spec in Hkeep. apply Hkeep. auto.
  - intros n Hin Hrole Honly. apply in_availableNurses_iff.
    rewrite Hst. repeat split; auto.
    rewrite discharge_admitted. intros Hc.
    apply in_map_iff in Hc as (q & Hq & Hqin).
    apply List.filter_In in Hqin as [Hqin Hkeep].
    apply keepsOthers_spec in Hkeep. apply Hkeep. auto.
Qed.

Lemma discharge_frees_staff_witness :
  In Demo.house (staff Demo.crowded)
  /\ isNurse Demo.house = false
  /\ In Demo.house (availableDoctors Demo.hospital)
  /\ ~ In Demo.house (availableDoctors Demo.crowded)
  /\ In Demo.house
       (availableDoctors
          (handleDischargePatient "2024-01-02T08:00:00.000Z"
             "patient_1700000000000" Demo.crowded)).
Proof.
  assert (H1 : In Demo.house (staff Demo.crowded)) by (left; reflexivity).
  assert (H2 : isNurse Demo.house = false) by reflexivity.
  split; [exact H1|]. split; [exact H2|]. split; [|split].
  - vm_compute. tauto.
  - intros H. apply in_availableDoctors_iff in H as (_ & _ & H). apply H.
    left. reflexivity.
  - apply (proj1 (discharge_frees_staff "2024-01-02T08:00:00.000Z"
                    "patient_1700000000000" Demo.crowded) Demo.house H1 H2).
    intros q [<-|[<-|[]]] _; reflexivity.
Defined.

(** ** Patient ids *)

Lemma patientIdAt_inj a b : patientIdAt a = patientIdAt b -> a = b.
Proof.
  unfold patientIdAt. intros H. apply append_inj_l in H.
  now apply (inj pretty) in H.
Qed.

Lemma step_ids w op x :
  In x (map Patient.id (admittedPatients (step w op))) ->
  In x (map Patient.id (admittedPatients w))
  \/ exists env patientData outcome,
       op = AdmitOp env patientData outcome /\ x = patientIdAt (Date_now env).
Proof.
  destruct op as [env patientData outcome|now patientId]; simpl.
  - destruct (admit_cases env patientData w outcome)
      as [(sectionId & doctorId & nurseId & s & _ & _ & ->)|[msg ->]]; [|auto].
    destruct (committed_fields env patientData s
                (mkPatient env patientData sectionId doctorId nurseId) w)
      as (_ & _ & -> & _).
    rewrite map_app, in_app_iff. simpl. intros [H|[<-|[]]]; [auto|].
    right. exists env, patientData, outcome. auto.
  - rewrite discharge_admitted. intros H. left.
    apply in_map_iff in H as (q & Hq & Hin).
    apply List.filter_In in Hin as [Hin _]. apply in_map_iff. eauto.
Qed.

Lemma step_distinct_ids w op :
  List.NoDup (map Patient.id (admittedPatients w)) ->
  (forall t, In t (clocks [op]) ->
             ~ In (patientIdAt t) (map Patient.id (admittedPatients w))) ->
  List.NoDup (map Patient.id (admittedPatients (step w op))).
Proof.
  intros Hnd Hfresh.
  destruct op as [env patientData outcome|now patientId]; simpl.
  - destruct (admit_cases env patientData w outcome)
      as [(sectionId & doctorId & nurseId & s & _ & _ & ->)|[msg ->]]; [|exact Hnd].
    destruct (committed_fields env patientData s
                (mkPatient env patientData sectionId doctorId nurseId) w)
      as (_ & _ & -> & _).
    rewrite map_app. simpl. apply NoDup_snoc; [exact Hnd|].
    apply Hfresh. simpl. auto.
  - rewrite discharge_admitted. now apply NoDup_map_filter.
Qed.

Lemma clocks_cons op ops : clocks (op :: ops) = clocks [op] ++ clocks ops.
Proof. unfold clocks. simpl. now rewrite app_nil_r. Qed.

Lemma run_distinct_ids ops w :
  List.NoDup (map Patient.id (admittedPatients w)) ->
  List.NoDup (clocks ops) ->
  (forall t, In t (clocks ops) ->
             ~ In (patientIdAt t) (map Patient.id (admittedPatients w))) ->
  List.NoDup (map Patient.id (admittedPatients (run ops w))).
Proof.
  revert w. induction ops as [|op ops IH]; intros w Hnd Hclk Hfresh; [exact Hnd|].
  unfold run in *. simpl fold_left.
  rewrite clocks_cons in Hclk, Hfresh.
  apply IH.
  - apply step_distinct_ids; [exact Hnd|].
    intros t Ht. apply Hfresh. rewrite in_app_iff. now left.
  - now apply List.NoDup_app_remove_l in Hclk.
  - intros t Ht Hin. apply step_ids in Hin as [Hin|(env & pd & out & -> & Heq)].
    + apply (Hfresh t); [|exact Hin]. rewrite in_app_iff. now right.
    + apply patientIdAt_inj in Heq. subst t. simpl in Hclk.
      inversion Hclk as [|? ? Hnotin _]; subst. contradiction.
Qed.

(** X6. Patient ids are derived from the clock alone: starting from an
    empty admitted collection, if no two admissions of a sequence read the
    same millisecond, the admitted patients carry pairwise distinct ids. *)
Theorem distinct_clocks_distinct_ids w0 ops :
  admittedPatients w0 = [] ->
  List.NoDup (clocks ops) ->
  List.NoDup (map Patient.id (admittedPatients (run ops w0))).
Proof.
  intros Hempty Hclk. apply run_distinct_ids; [| exact Hclk |].
  - rewrite Hempty. constructor.
  - intros t _. rewrite Hempty. intros [].
Qed.

Lemma distinct_clocks_distinct_ids_witness :
  admittedPatients Demo.hospital = []
  /\ List.NoDup
       (clocks [AdmitOp (Demo.env 1700000000000) Demo.alice (Demo.answer "s1" "d1" "n1");
                AdmitOp (Demo.env 1700000000001) Demo.bob (Demo.answer "s1" "d2" "n2")])
  /\ List.NoDup
       (map Patient.id
          (admittedPatients
             (run [AdmitOp (Demo.env 1700000000000) Demo.alice (Demo.answer "s1" "d1" "n1");
                   AdmitOp (Demo.env 1700000000001) Demo.bob (Demo.answer "s1" "d2" "n2")]
                Demo.hospital))).
Proof.
  assert (H1 : admittedPatients Demo.hospital = []) by reflexivity.
  assert (H2 : List.NoDup
                 (clocks [AdmitOp (Demo.env 1700000000000) Demo.alice
                            (Demo.answer "s1" "d1" "n1");
                          AdmitOp (Demo.env 1700000000001) Demo.bob
                            (Demo.answer "s1" "d2" "n2")])).
  { simpl. repeat constructor; simpl; intuition discriminate. }
  split; [exact H1|]. split; [exact H2|].
  exact (distinct_clocks_distinct_ids Demo.hospital _ H1 H2).
Defined.

Example same_millisecond_same_id :
  map Patient.id
    (admittedPatients
       (run [AdmitOp (Demo.env 1700000000000) Demo.alice (Demo.answer "s1" "d1" "n1");
             AdmitOp (Demo.env 1700000000000) Demo.bob (Demo.answer "s1" "d2" "n2")]
          Demo.hospital))
  = ["patient_1700000000000"; "patient_1700000000000"].
Proof. vm_compute. reflexivity. Qed.

Lemma filter_remove_unique {A B} (f : A -> B) (g : A -> bool) (l1 l2 : list A) x :
  List.NoDup (map f (l1 ++ x :: l2)) ->
  g x = false ->
  (forall y, g y = false -> f y = f x) ->
  List.filter g (l1 ++ x :: l2) = l1 ++ l2.
Proof.
  intros Hnd Hx Hg.
  assert (Hother : forall y, In y (l1 ++ l2) -> g y = true).
  { intros y Hy. destruct (g y) eqn:Hgy; [reflexivity|]. exfalso.
    rewrite map_app in Hnd. simpl in Hnd.
    apply List.NoDup_remove_2 in Hnd. apply Hnd.
    rewrite <- map_app, <- (Hg y Hgy). now apply in_map. }
  rewrite List.filter_app. simpl. rewrite Hx.
  rewrite !filter_all_true; [reflexivity| |];
    apply List.Forall_forall; intros y Hy; apply Hother; rewrite in_app_iff; auto.
Qed.

(** X7. When the admitted patients carry pairwise distinct ids, a
    discharge removes exactly the patient with the given id and keeps all
    the others in their order. *)
Theorem discharge_removes_one now w before p after :
  List.NoDup (map Patient.id (admittedPatients w)) ->
  admittedPatients w = before ++ p :: after ->
  admittedPatients (handleDischargePatient now (Patient.id p) w) = before ++ after /\
  dischargedPatients (handleDischargePatient now (Patient.id p) w)
    = Patient.withDischargeDate p now :: dischargedPatients w.
Proof.
  intros Hnd Hsplit. split.
  - rewrite discharge_admitted, Hsplit. rewrite Hsplit in Hnd.
    apply (filter_remove_unique Patient.id); [exact Hnd| |].
    + unfold keepsOthers, hasId. now rewrite String.eqb_refl.
    + intros y Hy. unfold keepsOthers in Hy. apply negb_false_iff in Hy.
      now apply eqb_string_eq in Hy.
  - assert (Hfind : List.find (hasId (Patient.id p)) (admittedPatients w) = Some p).
    { destruct (List.find (hasId (Patient.id p)) (admittedPatients w)) as [q|] eqn:Hf.
      - f_equal. apply List.find_some in Hf as [Hin Hq].
        apply eqb_string_eq in Hq.
        apply (NoDup_map_eq Patient.id (admittedPatients w)); auto.
        rewrite Hsplit. apply in_elt.
      - apply find_none_iff in Hf. rewrite List.Forall_forall in Hf.
        specialize (Hf p). rewrite Hsplit in Hf. specialize (Hf (in_elt _ _ _)).
        unfold hasId in Hf. now rewrite String.eqb_refl in Hf. }
    rewrite (discharge_found _ _ _ _ Hfind). reflexivity.
Qed.

Lemma discharge_removes_one_witness :
  let w := run [AdmitOp (Demo.env 1700000000000) Demo.alice (Demo.answer "s1" "d1" "n1");
                AdmitOp (Demo.env 1700000000001) Demo.bob (Demo.answer "s1" "d2" "n2")]
             Demo.hospital in
  List.NoDup (map Patient.id (admittedPatients w))
  /\ map Patient.name
       (admittedPatients
          (handleDischargePatient "2024-01-02T08:00:00.000Z" "patient_1700000000000" w))
     = ["Bob"].
Proof.
  intros w.
  assert (H1 : List.NoDup (map Patient.id (admittedPatients w))).
  { vm_compute. repeat constructor; simpl; intuition discriminate. }
  split; [exact H1|].
  exact (f_equal (map Patient.name)
           (proj1 (discharge_removes_one "2024-01-02T08:00:00.000Z" w []
                     (mkPatient (Demo.env 1700000000000) Demo.alice "s1" "d1" "n1")
                     [mkPatient (Demo.env 1700000000001) Demo.bob "s1" "d2" "n2"]
                     H1 eq_refl))).
Defined.

(** ** Notifications across a sequence of operations *)

Lemma step_notifications w op staffId :
  exists added,
    notificationsOf (localStorage (step w op)) staffId
    = notificationsOf (localStorage w) staffId ++ added.
Proof.
  destruct op as [env patientData outcome|now patientId]; cbn [step].
  - destruct (admit_cases env patientData w outcome)
      as [(sectionId & doctorId & nurseId & s & _ & _ & ->)|[msg ->]].
    + rewrite localStorage_committed, !storeAfter_notifications, <- app_assoc.
      eexists. reflexivity.
    + exists []. now rewrite app_nil_r.
  - destruct (discharge_fields now patientId w) as (_ & _ & ->).
    exists []. now rewrite app_nil_r.
Qed.

Lemma step_unreadable w op key :
  readable (localStorage w !! key) = false ->
  localStorage (step w op) !! key = localStorage w !! key.
Proof.
  intros Hbad.
  destruct op as [env patientData outcome|now patientId]; cbn [step].
  - destruct (admit_cases env patientData w outcome)
      as [(sectionId & doctorId & nurseId & s & _ & _ & ->)|[msg ->]];
      [|reflexivity].
    rewrite localStorage_committed.
    set (p := mkPatient env patientData sectionId doctorId nurseId).
    assert (Hstep : forall e a store,
               readable (store !! key) = false ->
               storeAfter e a p (staff w) store !! key = store !! key).
    { intros e a store Hs. rewrite storeAfter_lookup.
      case_bool_decide as Hk; [|now rewrite andb_false_r].
      subst key. rewrite Hs. now rewrite andb_false_r. }
    rewrite Hstep; [now apply Hstep|]. now rewrite Hstep.
  - now destruct (discharge_fields now patientId w) as (_ & _ & ->).
Qed.

(** X8. Stored notifications are append-only: over any sequence of
    admissions and discharges, whatever the resolver answers, the list
    stored for a staff member after the sequence is the list stored
    before it followed by the notifications added since; and a key whose
    text is neither empty nor an array is never overwritten. *)
Theorem notifications_append_only ops w :
  (forall staffId,
      exists added,
        notificationsOf (localStorage (run ops w)) staffId
        = notificationsOf (localStorage w) staffId ++ added)
  /\
  (forall key,
      readable (localStorage w !! key) = false ->
      localStorage (run ops w) !! key = localStorage w !! key).
Proof.
  revert w. induction ops as [|op ops IH]; intros w.
  - split; [intros staffId; exists []; now rewrite app_nil_r|reflexivity].
  - unfold run in *. simpl fold_left. destruct (IH (step w op)) as [IH1 IH2]. split.
    + intros staffId. destruct (IH1 staffId) as [a1 ->].
      destruct (step_notifications w op staffId) as [a2 ->].
      exists (a2 ++ a1). now rewrite app_assoc.
    + intros key Hbad. rewrite IH2; [now apply step_unreadable|].
      now rewrite step_unreadable.
Qed.

(** * The prompt and the dashboard *)





Example prompt_shows_free_beds :
  map SimplifiedSection.availableBeds
    (simplifiedSections (availableSections Demo.hospital)
       (admittedPatients Demo.hospital)) = [2%Z].
Proof. reflexivity. Qed.

Example prompt_drops_full_sections :
  map SimplifiedSection.id
    (simplifiedSections [Demo.ward] (admittedPatients Demo.crowded)) = [].
Proof. reflexivity. Qed.

(** ** The dashboard's grouping of patients *)

Lemma grouping_step (m : gmap string (list Patient.t)) p sectionId :
  default []
    (alter (fun l => l ++ [p]) (Patient.assignedSectionId p)
       match m !! Patient.assignedSectionId p with
       | None => <[ Patient.assignedSectionId p := [] ]> m
       | Some _ => m
       end !! sectionId)
  = default [] (m !! sectionId)
      ++ (if Patient.assignedSectionId p =? sectionId then [p] else []).
Proof.
  destruct (Patient.assignedSectionId p =? sectionId) eqn:He.
  - apply eqb_string_eq in He. subst sectionId.
    rewrite lookup_alter_eq.
    destruct (m !! Patient.assignedSectionId p) as [l|] eqn:Hm.
    + now rewrite Hm.
    + now rewrite lookup_insert_eq.
  - apply eqb_string_neq in He.
    rewrite lookup_alter_ne by exact He.
    destruct (m !! Patient.assignedSectionId p) as [l|] eqn:Hm.
    + now rewrite app_nil_r.
    + rewrite lookup_insert_ne by exact He. now rewrite app_nil_r.
Qed.

Lemma grouping_fold l (m : gmap string (list Patient.t)) sectionId :
  default []
    (fold_left
       (fun map patient =>
          let sectionId := Patient.assignedSectionId patient in
          let map :=
            match map !! sectionId with
            | None => <[ sectionId := [] ]> map
            | Some _ => map
            end in
          alter (fun l => l ++ [patient]) sectionId map)
       l m !! sectionId)
  = default [] (m !! sectionId)
      ++ List.filter (fun p => Patient.assignedSectionId p =? sectionId) l.
Proof.
  revert m. induction l as [|p l IH]; intros m; simpl.
  - now rewrite app_nil_r.
  - rewrite IH. cbv zeta. rewrite grouping_step.
    destruct (Patient.assignedSectionId p =? sectionId); simpl.
    + now rewrite <- app_assoc.
    + now rewrite app_nil_r.
Qed.

(** X10. Under each section the dashboard lists exactly the admitted
    patients assigned to that section's id, in the order of admission; so
    the count it shows for a section is the count the admission workflow
    compares with the capacity. *)
Theorem dashboard_groups_by_section admitted section :
  Dashboard.patientsInSection admitted section
    = List.filter
        (fun p => Patient.assignedSectionId p =? Section.id section) admitted
  /\ length (Dashboard.patientsInSection admitted section)
     = patientsIn (Section.id section) admitted.
Proof.
  assert (H : Dashboard.patientsInSection admitted section
              = List.filter
                  (fun p => Patient.assignedSectionId p =? Section.id section)
                  admitted).
  { unfold Dashboard.patientsInSection, Dashboard.patientsBySection.
    rewrite grouping_fold. now rewrite lookup_empty. }
  split; [exact H|]. now rewrite H.
Qed.

(** ** Occupancy *)











(** ** The dashboard's availability figures *)

Lemma dashboard_assigned_ids (l : list Patient.t) (ids : gset string) x :
  x ∈ fold_left
        (fun ids p =>
           {[ Patient.assignedNurseId p ]} ∪ ({[ Patient.assignedDoctorId p ]} ∪ ids))
        l ids
  <-> x ∈ ids \/ In x (map Patient.assignedDoctorId l)
      \/ In x (map Patient.assignedNurseId l).
Proof.
  revert ids. induction l as [|p l IH]; intros ids; simpl.
  - tauto.
  - rewrite IH. rewrite !elem_of_union, !elem_of_singleton. intuition congruence.
Qed.

Lemma filter_filter {A} (f g : A -> bool) (l : list A) :
  List.filter f (List.filter g l) = List.filter (fun x => g x && f x) l.
Proof.
  induction l as [|a l IH]; simpl; [reflexivity|].
  destruct (g a); simpl; [|exact IH]. destruct (f a); now rewrite IH.
Qed.

Lemma filter_length_mono {A} (f g : A -> bool) (l : list A) :
  (forall x, In x l -> f x = true -> g x = true) ->
  (length (List.filter f l) <= length (List.filter g l))%nat.
Proof.
  induction l as [|a l IH]; simpl; intros H; [lia|].
  assert (IH' : (length (List.filter f l) <= length (List.filter g l))%nat).
  { apply IH. intros x Hx. apply H. now right. }
  destruct (f a) eqn:Hf.
  - rewrite (H a (or_introl eq_refl) Hf). simpl. lia.
  - destruct (g a); simpl; lia.
Qed.

Lemma dashboard_not_assigned w x :
  negb (bool_decide
          (x ∈ Dashboard.assignedStaffIds
                 (Dashboard.stats (staff w) (admittedPatients w)))) = true
  <-> ~ In x (map Patient.assignedDoctorId (admittedPatients w))
      /\ ~ In x (map Patient.assignedNurseId (admittedPatients w)).
Proof.
  rewrite negb_true_iff, bool_decide_eq_false.
  cbn [Dashboard.stats Dashboard.assignedStaffIds].
  rewrite dashboard_assigned_ids. rewrite elem_of_empty. tauto.
Qed.

Lemma workflow_not_assigned_doctor w x :
  negb (bool_decide (x ∈ assignedDoctorIds w)) = true
  <-> ~ In x (map Patient.assignedDoctorId (admittedPatients w)).
Proof.
  unfold assignedDoctorIds. rewrite negb_true_iff, <- not_true_iff_false.
  now rewrite in_assigned_set.
Qed.

Lemma workflow_not_assigned_nurse w x :
  negb (bool_decide (x ∈ assignedNurseIds w)) = true
  <-> ~ In x (map Patient.assignedNurseId (admittedPatients w)).
Proof.
  unfold assignedNurseIds. rewrite negb_true_iff, <- not_true_iff_false.
  now rewrite in_assigned_set.
Qed.

Lemma dashboard_doctors_eq w :
  (forall d, In d (staff w) -> isNurse d = false ->
             ~ In (StaffMember.id d) (map Patient.assignedNurseId (admittedPatients w))) ->
  Dashboard.availableDoctors (Dashboard.stats (staff w) (admittedPatients w))
  = length (availableDoctors w).
Proof.
  intros Hclean. cbn [Dashboard.stats Dashboard.availableDoctors].
  rewrite filter_filter. unfold availableDoctors. f_equal.
  apply List.filter_ext_in. intros d Hd.
  destruct (isNurse d) eqn:Hrole; [reflexivity|]. cbn [negb andb].
  apply eq_true_iff_eq.
  rewrite (dashboard_not_assigned w), workflow_not_assigned_doctor.
  specialize (Hclean d Hd Hrole). tauto.
Qed.

Lemma dashboard_nurses_eq w :
  (forall n, In n (staff w) -> isNurse n = true ->
             ~ In (StaffMember.id n) (map Patient.assignedDoctorId (admittedPatients w))) ->
  Dashboard.availableNurses (Dashboard.stats (staff w) (admittedPatients w))
  = length (availableNurses w).
Proof.
  intros Hclean. cbn [Dashboard.stats Dashboard.availableNurses].
  rewrite filter_filter. unfold availableNurses. f_equal.
  apply List.filter_ext_in. intros n Hn.
  destruct (isNurse n) eqn:Hrole; [|reflexivity]. cbn [andb].
  apply eq_true_iff_eq.
  rewrite (dashboard_not_assigned w), workflow_not_assigned_nurse.
  specialize (Hclean n Hn Hrole). tauto.
Qed.

(** X12. The dashboard counts a member of staff as assigned when their id
    is the doctor id or the nurse id of an admitted patient, whereas the
    admission workflow looks at one slot only.  So the dashboard never
    shows more available doctors, or nurses, than the workflow offers to
    the resolver; and the figures agree after any sequence of operations
    from an empty admitted collection in which staff ids are pairwise
    distinct and the resolver names doctors and nurses among the
    candidates it was given. *)
Theorem dashboard_availability w0 ops :
  ((Dashboard.availableDoctors
      (Dashboard.stats (staff (run ops w0)) (admittedPatients (run ops w0)))
    <= length (availableDoctors (run ops w0)))%nat
   /\
   (Dashboard.availableNurses
      (Dashboard.stats (staff (run ops w0)) (admittedPatients (run ops w0)))
    <= length (availableNurses (run ops w0)))%nat)
  /\
  (admittedPatients w0 = [] ->
   List.NoDup (map StaffMember.id (staff w0)) ->
   obeys w0 ops ->
   Dashboard.availableDoctors
     (Dashboard.stats (staff (run ops w0)) (admittedPatients (run ops w0)))
   = length (availableDoctors (run ops w0))
   /\
   Dashboard.availableNurses
     (Dashboard.stats (staff (run ops w0)) (admittedPatients (run ops w0)))
   = length (availableNurses (run ops w0))).
Proof.
  generalize (run_staff ops w0). 
  set (w := run ops w0). intros Hstaff. split.
  - cbn [Dashboard.stats Dashboard.availableDoctors Dashboard.availableNurses].
    rewrite !filter_filter. split.
    + unfold availableDoctors. apply filter_length_mono. intros d _ H.
      apply andb_true_iff in H as [Hrole H]. rewrite Hrole. cbn [andb].
      apply (dashboard_not_assigned w) in H.
      apply workflow_not_assigned_doctor. tauto.
    + unfold availableNurses. apply filter_length_mono. intros n _ H.
      apply andb_true_iff in H as [Hrole H]. rewrite Hrole. cbn [andb].
      apply (dashboard_not_assigned w) in H.
      apply workflow_not_assigned_nurse. tauto.
  - intros Hempty Hids Hob.
    assert (Hst : Staffed w).
    { apply Staffed_run; [exact Hob|]. now apply Staffed_empty. }
    assert (Hids' : List.NoDup (map StaffMember.id (staff w))) by now rewrite Hstaff.
    split.
    + apply dashboard_doctors_eq. intros d Hd Hrole Hin.
      apply in_map_iff in Hin as (q & Hq & Hqin).
      destruct (nurses_on_staff w Hst q Hqin) as (n & Hnin & Hnid & Hnrole).
      assert (d = n).
      { apply (NoDup_map_eq StaffMember.id (staff w)); auto. congruence. }
      subst. congruence.
    + apply dashboard_nurses_eq. intros n Hn Hrole Hin.
      apply in_map_iff in Hin as (q & Hq & Hqin).
      destruct (doctors_on_staff w Hst q Hqin) as (d & Hdin & Hdid & Hdrole).
      assert (d = n).
      { apply (NoDup_map_eq StaffMember.id (staff w)); auto. congruence. }
      subst. congruence.
Qed.

Lemma dashboard_availability_witness :
  admittedPatients Demo.hospital = []
  /\ List.NoDup (map StaffMember.id (staff Demo.hospital))
  /\ obeys Demo.hospital
       [AdmitOp (Demo.env 1700000000000) Demo.alice (Demo.answer "s1" "d1" "n1")]
  /\ Dashboard.availableDoctors
       (Dashboard.stats
          (staff (run [AdmitOp (Demo.env 1700000000000) Demo.alice
                         (Demo.answer "s1" "d1" "n1")] Demo.hospital))
          (admittedPatients
             (run [AdmitOp (Demo.env 1700000000000) Demo.alice
                     (Demo.answer "s1" "d1" "n1")] Demo.hospital)))
     = length
         (availableDoctors
            (run [AdmitOp (Demo.env 1700000000000) Demo.alice
                    (Demo.answer "s1" "d1" "n1")] Demo.hospital)).
Proof.
  assert (H1 : admittedPatients Demo.hospital = []) by reflexivity.
  assert (H2 : List.NoDup (map StaffMember.id (staff Demo.hospital))).
  { simpl. repeat constructor; simpl; intuition discriminate. }
  assert (H3 : obeys Demo.hospital
                 [AdmitOp (Demo.env 1700000000000) Demo.alice
                    (Demo.answer "s1" "d1" "n1")]).
  { split; [|exact I]. intros a sid did nid [= <-] [= <- <- <-]. vm_compute. tauto. }
  split; [exact H1|]. split; [exact H2|]. split; [exact H3|].
  exact (proj1 (proj2 (dashboard_availability Demo.hospital _) H1 H2 H3)).
Defined.

Example dashboard_counts_either_slot :
  let w := run [AdmitOp (Demo.env 1700000000000) Demo.alice (Demo.answer "s1" "d1" "d2")]
             Demo.hospital in
  (Dashboard.availableDoctors (Dashboard.stats (staff w) (admittedPatients w)),
   length (availableDoctors w)) = (0%nat, 1%nat).
Proof. vm_compute. reflexivity. Qed.

(** * Setting the hospital up *)

Example trim_examples :
  map trim ["  Dr. House "; "   "; "a b"] = ["Dr. House"; EmptyString; "a b"].
Proof. reflexivity. Qed.

Lemma existsb_false_forall {A} (f : A -> bool) (l : list A) :
  existsb f l = false -> forall x, In x l -> f x = false.
Proof.
  intros H x Hx. destruct (f x) eqn:Hf; [|reflexivity].
  assert (existsb f l = true) by (apply existsb_exists; eauto). congruence.
Qed.

Lemma handleSubmit_complete sections staffByRole secs stf :
  SetupScreen.handleSubmit sections staffByRole = SetupScreen.SetupComplete secs stf ->
  secs = sections /\ stf = SetupScreen.staffList staffByRole /\
  sections <> [] /\
  (forall s, In s sections -> Section.name s <> EmptyString /\ (1 <= Section.capacity s)%Z) /\
  List.filter (fun s => negb (isNurse s)) stf <> [] /\
  List.filter (fun s => isNurse s) stf <> [] /\
  (forall s, In s stf -> trim (StaffMember.name s) <> EmptyString).
Proof.
  unfold SetupScreen.handleSubmit.
  destruct (existsb _ sections) eqn:Hsec; [discriminate|]. cbn [orb].
  destruct (length sections =? 0)%nat eqn:Hlen; [discriminate|].
  destruct (length (SetupScreen.staffList staffByRole) =? 0)%nat; [discriminate|].
  cbn [orb].
  destruct (length (List.filter (fun s => negb (isNurse s))
                      (SetupScreen.staffList staffByRole)) =? 0)%nat eqn:Hdoc;
    [discriminate|]. cbn [orb].
  destruct (length (List.filter (fun s => isNurse s)
                      (SetupScreen.staffList staffByRole)) =? 0)%nat eqn:Hnur;
    [discriminate|].
  destruct (existsb _ (SetupScreen.staffList staffByRole)) eqn:Hname; [discriminate|].
  intros [= <- <-]. repeat split.
  - now apply length_nonzero_not_nil.
  - pose proof (existsb_false_forall _ _ Hsec s H) as Hs. cbv beta in Hs.
    apply orb_false_iff in Hs as [Hs _]. now apply eqb_string_neq.
  - pose proof (existsb_false_forall _ _ Hsec s H) as Hs. cbv beta in Hs.
    apply orb_false_iff in Hs as [_ Hs]. apply Z.leb_gt in Hs. lia.
  - now apply length_nonzero_not_nil.
  - now apply length_nonzero_not_nil.
  - intros s Hs. pose proof (existsb_false_forall _ _ Hname s Hs) as Hn.
    now apply eqb_string_neq.
Qed.

Lemma handleSetupComplete_fields secs stf w :
  sections (handleSetupComplete secs stf w) = secs /\
  staff (handleSetupComplete secs stf w) = stf /\
  admittedPatients (handleSetupComplete secs stf w) = admittedPatients w /\
  dischargedPatients (handleSetupComplete secs stf w) = dischargedPatients w /\
  localStorage (handleSetupComplete secs stf w) = localStorage w /\
  appState (handleSetupComplete secs stf w) = dashboard.
Proof. repeat split. Qed.

Lemma empty_ward_candidates w :
  admittedPatients w = [] ->
  availableSections w
    = List.filter (fun s => (0 <? Section.capacity s)%Z) (sections w) /\
  availableDoctors w = List.filter (fun s => negb (isNurse s)) (staff w) /\
  availableNurses w = List.filter (fun s => isNurse s) (staff w).
Proof.
  intros Hempty.
  unfold availableSections, availableDoctors, availableNurses,
    assignedDoctorIds, assignedNurseIds.
  rewrite Hempty.
  split; [reflexivity|].
  split; apply List.filter_ext; intros s;
    (destruct (bool_decide _) eqn:Hb;
     [apply in_assigned_set in Hb; destruct Hb | now rewrite andb_true_r]).
Qed.

(** X13. A configuration that the setup screen lets through is one the
    admission workflow can work with: once [handleSubmit] has called
    [onSetupComplete] and no patient is admitted, an admission passes the
    pre-flight checks and asks the resolver, offering every section of
    the configuration, every member of staff whose role is not nurse as a
    doctor and every nurse as a nurse. *)
Theorem submitted_setup_admits sections staffByRole secs stf env patientData w :
  SetupScreen.handleSubmit sections staffByRole = SetupScreen.SetupComplete secs stf ->
  admittedPatients w = [] ->
  exists k,
    handleAdmitPatient env patientData (handleSetupComplete secs stf w)
    = AwaitResolver
        (Request.mk patientData sections
           (List.filter (fun s => negb (isNurse s)) (SetupScreen.staffList staffByRole))
           (List.filter (fun s => isNurse s) (SetupScreen.staffList staffByRole))
           [])
        k.
Proof.
  intros Hsubmit Hempty.
  destruct (handleSubmit_complete _ _ _ _ Hsubmit)
    as (-> & -> & Hne & Hsec & Hdoc & Hnur & _).
  set (w' := handleSetupComplete sections (SetupScreen.staffList staffByRole) w).
  assert (Hadm : admittedPatients w' = []) by exact Hempty.
  destruct (empty_ward_candidates w' Hadm) as (Hs & Hd & Hn).
  assert (Hall : availableSections w' = sections).
  { rewrite Hs. apply filter_all_true. apply List.Forall_forall.
    intros s Hin. apply Z.ltb_lt. destruct (Hsec s Hin). lia. }
  rewrite admit_preflight, Hall, Hd, Hn, Hadm.
  change (staff w') with (SetupScreen.staffList staffByRole).
  apply length_nonzero_not_nil in Hne, Hdoc, Hnur.
  rewrite Hne, Hdoc, Hnur. eexists. reflexivity.
Qed.

Lemma submitted_setup_admits_witness :
  SetupScreen.handleSubmit [Demo.ward]
    [("General Doctor", [ {| SetupScreen.member_id := "d1";
                             SetupScreen.member_name := "Dr. House" |} ]);
     ("Nurse", [ {| SetupScreen.member_id := "n1";
                    SetupScreen.member_name := "Florence Nightingale" |} ])]
  = SetupScreen.SetupComplete [Demo.ward] [Demo.house; Demo.nightingale]
  /\ admittedPatients Demo.hospital = []
  /\ exists k,
       handleAdmitPatient (Demo.env 1700000000000) Demo.alice
         (handleSetupComplete [Demo.ward] [Demo.house; Demo.nightingale] Demo.hospital)
       = AwaitResolver
           (Request.mk Demo.alice [Demo.ward] [Demo.house] [Demo.nightingale] []) k.
Proof.
  assert (H1 : SetupScreen.handleSubmit [Demo.ward]
                 [("General Doctor", [ {| SetupScreen.member_id := "d1";
                                          SetupScreen.member_name := "Dr. House" |} ]);
                  ("Nurse", [ {| SetupScreen.member_id := "n1";
                                 SetupScreen.member_name := "Florence Nightingale" |} ])]
               = SetupScreen.SetupComplete [Demo.ward] [Demo.house; Demo.nightingale])
    by reflexivity.
  assert (H2 : admittedPatients Demo.hospital = []) by reflexivity.
  split; [exact H1|]. split; [exact H2|].
  exact (submitted_setup_admits _ _ _ _ (Demo.env 1700000000000) Demo.alice
           Demo.hospital H1 H2).
Defined.

(** X14. Saving and reloading the configuration.  While the setup screen
    of a first run is shown, or when the store refuses the write, the
    effect leaves the store as it is.  Otherwise a reload after the effect
    is never a first run and gets back the sections and the staff that
    were saved, also when either list is empty. *)
Theorem saved_configuration_reloads accepts w :
  (appState w = setup \/ accepts = false ->
   localStorage (persistConfig accepts w) = localStorage w)
  /\
  (appState w <> setup ->
   getInitialState (localStorage (persistConfig true w))
   = {| init_sections := JArray (map Config_json.encodeSection (sections w));
        init_staff := JArray (map Config_json.encodeStaff (staff w));
        isInitialSetup := false |}).
Proof.
  unfold persistConfig. split.
  - intros [H| ->]; [now rewrite H|]. now destruct (appState w).
  - intros Hview.
    assert (Hstore : forall m : gmap string Text,
               getInitialState
                 (<[ "hospital_config" :=
                       Stringified (Config_json.encode (sections w) (staff w)) ]> m)
               = {| init_sections := JArray (map Config_json.encodeSection (sections w));
                    init_staff := JArray (map Config_json.encodeStaff (staff w));
                    isInitialSetup := false |}).
    { intros m. unfold getInitialState, getInitialState_try.
      rewrite lookup_insert_eq. reflexivity. }
    destruct (appState w); [contradiction| | |]; apply Hstore.
Qed.

Lemma saved_configuration_reloads_witness :
  appState (handleSetupComplete [] [] Demo.hospital) <> setup
  /\ getInitialState
       (localStorage (persistConfig true (handleSetupComplete [] [] Demo.hospital)))
     = {| init_sections := JArray []; init_staff := JArray [];
          isInitialSetup := false |}.
Proof.
  assert (H : appState (handleSetupComplete [] [] Demo.hospital) <> setup)
    by discriminate.
  split; [exact H|].
  exact (proj2 (saved_configuration_reloads true
                  (handleSetupComplete [] [] Demo.hospital)) H).
Defined.

(** * Staff registration *)






Example registration_trims_name :
  init_staff
    (getInitialState
       (StaffRegistration.store
          (StaffRegistration.handleSubmit "u7" true " Clara Barton " "Nurse"
             RegistrationDemo.open)))
  = JArray
      [Config_json.encodeStaff Demo.house;
       Config_json.encodeStaff
         {| StaffMember.id := "staff_u7"; StaffMember.name := "Clara Barton";
            StaffMember.role := "Nurse" |}].
Proof. vm_compute. reflexivity. Qed.



(** X17. A registration fails without a trace in the store.  When the
    name is blank or the role empty, or the stored configuration does not
    parse, or it parses to something whose [staff] is not an array, or the
    store refuses the write, the store and the registered id are what they
    were and one error message is shown. *)
Theorem registration_failure_changes_nothing uuid accepts name role st :
  trim name = EmptyString
  \/ role = EmptyString
  \/ accepts = false
  \/ StaffRegistration.store st !! "hospital_config" = Some Malformed
  \/ (exists config,
        StaffRegistration.store st !! "hospital_config" = Some (Stringified config)
        /\ forall items, getProp "staff" config <> inr (Some (JArray items))) ->
  StaffRegistration.store (StaffRegistration.handleSubmit uuid accepts name role st)
    = StaffRegistration.store st
  /\ StaffRegistration.registeredId
       (StaffRegistration.handleSubmit uuid accepts name role st)
     = StaffRegistration.registeredId st
  /\ exists msg,
       StaffRegistration.shown
         (StaffRegistration.handleSubmit uuid accepts name role st)
       = StaffRegistration.shown st ++ [errorToast msg].
Proof.
  intros Hbad. unfold StaffRegistration.handleSubmit.
  destruct ((trim name =? EmptyString) || (role =? EmptyString)) eqn:Hblank.
  { repeat split. eexists. reflexivity. }
  apply orb_false_iff in Hblank as [Hname Hrole].
  apply eqb_string_neq in Hname, Hrole.
  assert (Hnone : StaffRegistration.handleSubmit_try uuid accepts name role st = None).
  { unfold StaffRegistration.handleSubmit_try.
    destruct Hbad as [H|[H|[H|[H|(config & H & Hstaff)]]]];
      [contradiction|contradiction| | |].
    - subst accepts.
      destruct (if present _ then _ else _) as [config|]; [|reflexivity].
      cbn [mbind option_bind].
      now destruct (StaffRegistration.pushStaff _ config).
    - rewrite H. reflexivity.
    - rewrite H. cbn [present mbind option_bind JSON_parse].
      unfold StaffRegistration.pushStaff.
      destruct config as [| | | | |fields]; try reflexivity.
      destruct (getProp "staff" (JObject fields)) as [|[[| | | |items|]|]] eqn:Hg;
        try reflexivity.
      exfalso. exact (Hstaff items eq_refl). }
  rewrite Hnone. repeat split. eexists. reflexivity.
Qed.

Lemma registration_failure_changes_nothing_witness :
  trim "   " = EmptyString
  /\ StaffRegistration.store
       (StaffRegistration.handleSubmit "u7" true "   " "Nurse" RegistrationDemo.open)
     = StaffRegistration.store RegistrationDemo.open.
Proof.
  assert (H : trim "   " = EmptyString) by reflexivity.
  split; [exact H|].
  exact (proj1 (registration_failure_changes_nothing "u7" true "   " "Nurse"
                  RegistrationDemo.open (or_introl H))).
Defined.

(** * The staff member's view *)

#[local] Arguments Config_json.encodeStaff : simpl never.






Example unknown_staff_id_is_not_found :
  StaffDashboard.loadInitialData "staff_zz"
    (StaffRegistration.store RegistrationDemo.open) StaffDashboard.initial
  = Some StaffDashboard.initial.
Proof. vm_compute. reflexivity. Qed.

(** X19. A notification created for a staff member reaches their open view:
    when [createNotification] has written their list and the view, which
    held the list stored before, receives the storage event of that
    write, the view holds the old notifications followed by the new one
    and announces the assignment with the patient's name. *)
Theorem notification_reaches_view env staffId p store store' view :
  createNotification_try env staffId p store = Some store' ->
  StaffDashboard.notifications view = notificationsOf store staffId ->
  StaffDashboard.handleStorageChange staffId (notificationKey staffId)
    (store' !! notificationKey staffId) view
  = Some {| StaffDashboard.staffMember := StaffDashboard.staffMember view;
            StaffDashboard.notifications :=
              notificationsOf store staffId
                ++ [Notification_json.encode (newNotification env p)];
            StaffDashboard.shown :=
              StaffDashboard.shown view
                ++ [ {| kind := toast_info;
                        text := "New Assignment: " ++ Patient.name p |} ] |}.
Proof.
  intros Hcreate Hview. rewrite createNotification_try_spec in Hcreate.
  destruct (readable (store !! notificationKey staffId) && setItem_accepts env);
    [|discriminate].
  injection Hcreate as <-.
  unfold StaffDashboard.handleStorageChange.
  rewrite String.eqb_refl, lookup_insert_eq.
  cbn [andb present mbind option_bind JSON_parse].
  rewrite Hview, length_app. cbn [length].
  replace (length (notificationsOf store staffId)
           <? length (notificationsOf store staffId) + 1)%nat with true
    by (symmetry; apply Nat.ltb_lt; lia).
  rewrite last_snoc. reflexivity.
Qed.

Lemma notification_reaches_view_witness :
  let p := mkPatient (Demo.env 1700000000000) Demo.alice "s1" "d1" "n1" in
  let store' : gmap string Text :=
    {[ notificationKey "d1" :=
         Stringified
           (JArray [Notification_json.encode (newNotification (Demo.notifyEnv "u1") p)]) ]} in
  createNotification_try (Demo.notifyEnv "u1") "d1" p ∅ = Some store'
  /\ StaffDashboard.shown
       <$> StaffDashboard.handleStorageChange "d1" (notificationKey "d1")
             (store' !! notificationKey "d1") StaffDashboard.initial
     = Some [ {| kind := toast_info; text := "New Assignment: Alice" |} ].
Proof.
  intros p store'.
  assert (H : createNotification_try (Demo.notifyEnv "u1") "d1" p ∅ = Some store').
  { vm_compute. reflexivity. }
  split; [exact H|].
  rewrite (notification_reaches_view (Demo.notifyEnv "u1") "d1" p ∅ store'
             StaffDashboard.initial H eq_refl).
  reflexivity.
Defined.

(** * Messages on display *)

Lemma toaster_step st e :
  List.NoDup (map Toaster.id (Toaster.toasts st)) ->
  (forall t, In t (Toaster.toasts st) -> (Toaster.id t < Toaster.toastCount st)%nat) ->
  List.NoDup (map Toaster.id (Toaster.toasts (Toaster.handle st e)))
  /\ (forall t, In t (Toaster.toasts (Toaster.handle st e)) ->
                (Toaster.id t < Toaster.toastCount (Toaster.handle st e))%nat).
Proof.
  intros Hnd Hlt. destruct e as [type message|dismissed]; simpl.
  - split.
    + constructor; [|exact Hnd]. intros Hin.
      apply in_map_iff in Hin as (t & Hid & Hin). specialize (Hlt t Hin). lia.
    + intros t [<-|Hin]; simpl; [lia|]. specialize (Hlt t Hin). lia.
  - split.
    + now apply NoDup_map_filter.
    + intros t Hin. apply List.filter_In in Hin as [Hin _]. auto.
Qed.

Lemma toaster_run events st :
  List.NoDup (map Toaster.id (Toaster.toasts st)) ->
  (forall t, In t (Toaster.toasts st) -> (Toaster.id t < Toaster.toastCount st)%nat) ->
  List.NoDup (map Toaster.id (Toaster.toasts (Toaster.run events st)))
  /\ (forall t, In t (Toaster.toasts (Toaster.run events st)) ->
                (Toaster.id t < Toaster.toastCount (Toaster.run events st))%nat).
Proof.
  revert st. induction events as [|e events IH]; intros st Hnd Hlt; [auto|].
  unfold Toaster.run in *. simpl.
  destruct (toaster_step st e Hnd Hlt). auto.
Qed.

(** X20. The messages on display carry pairwise distinct ids: starting
    with nothing on display, after any sequence of emitted and dismissed
    messages every id shown is below the counter and no id is shown
    twice, so that dismissing a displayed message, by its button or by its
    timer, removes that message and no other. *)
Theorem toasts_have_distinct_ids events st0 :
  Toaster.toasts st0 = [] ->
  List.NoDup (map Toaster.id (Toaster.toasts (Toaster.run events st0)))
  /\ (forall t, In t (Toaster.toasts (Toaster.run events st0)) ->
                (Toaster.id t < Toaster.toastCount (Toaster.run events st0))%nat)
  /\ (forall before t after,
        Toaster.toasts (Toaster.run events st0) = before ++ t :: after ->
        Toaster.toasts (Toaster.onDismiss (Toaster.id t) (Toaster.run events st0))
        = before ++ after).
Proof.
  intros Hempty.
  destruct (toaster_run events st0) as [Hnd Hlt].
  { rewrite Hempty. constructor. }
  { rewrite Hempty. intros t []. }
  split; [exact Hnd|]. split; [exact Hlt|].
  intros before t after Hsplit. cbn [Toaster.onDismiss Toaster.toasts].
  rewrite Hsplit in *.
  apply (filter_remove_unique Toaster.id); [exact Hnd| |].
  - now rewrite Nat.eqb_refl.
  - intros y Hy. apply negb_false_iff in Hy. now apply Nat.eqb_eq in Hy.
Qed.

Lemma toasts_have_distinct_ids_witness :
  let st0 := {| Toaster.toastCount := 3; Toaster.toasts := [] |} in
  Toaster.toasts st0 = []
  /\ List.NoDup
       (map Toaster.id
          (Toaster.toasts
             (Toaster.run [Toaster.Emitted toast_info "a"; Toaster.Emitted toast_error "b";
                           Toaster.Dismissed 3; Toaster.Emitted toast_success "c"] st0))).
Proof.
  intros st0.
  assert (H : Toaster.toasts st0 = []) by reflexivity.
  split; [exact H|].
  exact (proj1 (toasts_have_distinct_ids _ st0 H)).
Defined.

Example toaster_newest_first :
  map Toaster.message
    (Toaster.toasts
       (Toaster.run [Toaster.Emitted toast_info "a"; Toaster.Emitted toast_error "b";
                     Toaster.Dismissed 3; Toaster.Emitted toast_success "c"]
          {| Toaster.toastCount := 3; Toaster.toasts := [] |}))
  = ["c"; "b"].
Proof. reflexivity. Qed.

(** * Editing the sections on the setup screen *)

Lemma section_eta (s : Section.t) :
  {| Section.id := Section.id s; Section.name := Section.name s;
     Section.capacity := Section.capacity s; Section.equipment := Section.equipment s |}
  = s.
Proof. now destruct s. Qed.

(** X21. A section added on the setup screen comes with an empty name, so
    the configuration cannot be submitted until it is named: however the
    rest of the form is filled in, [handleSubmit] answers with the alert
    about sections and does not call [onSetupComplete]. *)
Theorem added_section_blocks_submit uuid sections staffByRole :
  SetupScreen.handleSubmit (SetupScreen.addSection uuid sections) staffByRole
  = SetupScreen.Alert
      "Please ensure all sections have a name and a capacity greater than 0.".
Proof.
  unfold SetupScreen.handleSubmit, SetupScreen.addSection.
  rewrite existsb_app. cbn [existsb Section.name Section.capacity String.eqb orb].
  now rewrite orb_true_r.
Qed.

(** X22. Adding and removing undo each other when the fresh id is not in
    use: removing the section just added gives back the sections as they
    were, provided no section carried the new id; and removing the piece
    of equipment just added to the sections with a given id gives back
    the sections as they were, provided none of their equipment carried
    the new id. *)
Theorem add_then_remove uuid sectionId sections :
  (~ In uuid (map Section.id sections) ->
   SetupScreen.removeSection uuid (SetupScreen.addSection uuid sections) = sections)
  /\
  ((forall s, In s sections -> Section.id s = sectionId ->
              ~ In uuid (map Equipment.id (Section.equipment s))) ->
   SetupScreen.removeEquipment sectionId uuid
     (SetupScreen.addEquipment uuid sectionId sections) = sections).
Proof.
  split.
  - intros Hfresh. unfold SetupScreen.removeSection, SetupScreen.addSection.
    apply filter_app_last.
    + apply List.Forall_forall. intros s Hs. apply negb_true_iff, eqb_string_neq.
      intros Heq. apply Hfresh. rewrite <- Heq. now apply in_map.
    + cbn [Section.id]. now rewrite String.eqb_refl.
  - intros Hfresh. unfold SetupScreen.removeEquipment, SetupScreen.addEquipment.
    rewrite map_map. rewrite <- (map_id sections) at 2.
    apply map_ext_in. intros s Hs.
    destruct (Section.id s =? sectionId) eqn:Hid.
    + cbn [Section.id Section.name Section.capacity Section.equipment].
      rewrite Hid. rewrite filter_app_last.
      * apply section_eta.
      * apply List.Forall_forall. intros e He. apply negb_true_iff, eqb_string_neq.
        intros Heq. apply eqb_string_eq in Hid.
        apply (Hfresh s Hs Hid). rewrite <- Heq. now apply in_map.
      * cbn [Equipment.id]. now rewrite String.eqb_refl.
    + now rewrite Hid.
Qed.

Lemma add_then_remove_witness :
  ~ In "s2" (map Section.id [Demo.ward])
  /\ SetupScreen.removeSection "s2" (SetupScreen.addSection "s2" [Demo.ward])
     = [Demo.ward].
Proof.
  assert (H : ~ In "s2" (map Section.id [Demo.ward])).
  { intros [H|[]]. discriminate. }
  split; [exact H|].
  exact (proj1 (add_then_remove "s2" "s1" [Demo.ward]) H).
Defined.

Example remove_section_with_shared_id :
  SetupScreen.removeSection "s1" (SetupScreen.addSection "s1" [Demo.ward]) = [].
Proof. reflexivity. Qed.

(** * Ids on the setup screen *)

Lemma map_id_preserved {A B} (f : A -> B) (g : A -> A) (l : list A) :
  (forall x, f (g x) = f x) -> map f (map g l) = map f l.
Proof.
  intros H. rewrite map_map. apply map_ext. exact H.
Qed.

(** X23. The operations of the setup screen on sections keep the section
    ids pairwise distinct: adding a section under an id not yet in use,
    removing a section, renaming one, and adding or removing a piece of
    equipment. *)
Theorem section_edits_keep_ids_distinct sections :
  List.NoDup (map Section.id sections) ->
  (forall uuid, ~ In uuid (map Section.id sections) ->
     List.NoDup (map Section.id (SetupScreen.addSection uuid sections)))
  /\ (forall id, List.NoDup (map Section.id (SetupScreen.removeSection id sections)))
  /\ (forall id value,
        map Section.id (SetupEdit.updateSectionName id value sections)
        = map Section.id sections)
  /\ (forall uuid sectionId,
        map Section.id (SetupScreen.addEquipment uuid sectionId sections)
        = map Section.id sections)
  /\ (forall sectionId equipmentId,
        map Section.id (SetupScreen.removeEquipment sectionId equipmentId sections)
        = map Section.id sections).
Proof.
  intros Hnd. repeat split.
  - intros uuid Hfresh. unfold SetupScreen.addSection. rewrite map_app.
    now apply NoDup_snoc.
  - intros id. now apply NoDup_map_filter.
  - intros id value. apply map_id_preserved. intros s.
    now destruct (Section.id s =? id).
  - intros uuid sectionId. apply map_id_preserved. intros s.
    now destruct (Section.id s =? sectionId).
  - intros sectionId equipmentId. apply map_id_preserved. intros s.
    now destruct (Section.id s =? sectionId).
Qed.

Lemma section_edits_keep_ids_distinct_witness :
  List.NoDup (map Section.id [Demo.ward])
  /\ ~ In "s2" (map Section.id [Demo.ward])
  /\ List.NoDup (map Section.id (SetupScreen.addSection "s2" [Demo.ward])).
Proof.
  assert (H1 : List.NoDup (map Section.id [Demo.ward])).
  { simpl. constructor; [intros []|constructor]. }
  assert (H2 : ~ In "s2" (map Section.id [Demo.ward])).
  { intros [H|[]]. discriminate. }
  split; [exact H1|]. split; [exact H2|].
  exact (proj1 (section_edits_keep_ids_distinct [Demo.ward] H1) "s2" H2).
Defined.

(** ** Staff entries *)

Lemma lookupRole_none role entries :
  SetupEdit.lookupRole role entries = None <->
  existsb (fun entry => fst entry =? role) entries = false.
Proof.
  unfold SetupEdit.lookupRole.
  induction entries as [|e entries IH]; simpl; [tauto|].
  destruct (fst e =? role); simpl; [split; discriminate|exact IH].
Qed.

Lemma lookupRole_split role entries members :
  List.NoDup (map fst entries) ->
  SetupEdit.lookupRole role entries = Some members ->
  exists before after,
    entries = before ++ (role, members) :: after /\
    ~ In role (map fst before) /\ ~ In role (map fst after).
Proof.
  unfold SetupEdit.lookupRole. intros Hnd Hl.
  destruct (List.find (fun entry => fst entry =? role) entries) as [[r m]|] eqn:Hf;
    [|discriminate].
  injection Hl as ->.
  destruct (find_split _ _ _ Hf) as (before & after & -> & Hr & Hbefore).
  simpl in Hr. apply eqb_string_eq in Hr. subst r.
  exists before, after. split; [reflexivity|].
  rewrite map_app in Hnd. simpl in Hnd. split.
  - intros Hin. apply in_map_iff in Hin as (e & He & Hin).
    rewrite List.Forall_forall in Hbefore. specialize (Hbefore e Hin).
    apply eqb_string_neq in Hbefore. contradiction.
  - apply List.NoDup_remove_2 in Hnd. intros Hin. apply Hnd.
    rewrite in_app_iff. now right.
Qed.

Lemma replace_absent role members (l : list (string * list SetupScreen.Member)) :
  ~ In role (map fst l) ->
  map (fun entry => if fst entry =? role then (fst entry, members) else entry) l = l
  /\ existsb (fun entry => fst entry =? role) l = false
  /\ List.filter (fun entry => negb (fst entry =? role)) l = l.
Proof.
  induction l as [|e l IH]; simpl; intros Hnotin; [auto|].
  assert (He : (fst e =? role) = false) by (apply eqb_string_neq; tauto).
  destruct IH as (IH1 & IH2 & IH3); [tauto|].
  rewrite He. simpl. rewrite IH1, IH2, IH3. auto.
Qed.

Lemma setRole_present role members before old after :
  ~ In role (map fst before) -> ~ In role (map fst after) ->
  SetupEdit.setRole role members (before ++ (role, old) :: after)
  = before ++ (role, members) :: after.
Proof.
  intros Hb Ha. unfold SetupEdit.setRole.
  rewrite existsb_app. simpl. rewrite String.eqb_refl, orb_true_r.
  rewrite map_app. simpl. rewrite String.eqb_refl.
  destruct (replace_absent role members before Hb) as (-> & _ & _).
  destruct (replace_absent role members after Ha) as (-> & _ & _).
  reflexivity.
Qed.

Lemma deleteRole_present role before old after :
  ~ In role (map fst before) -> ~ In role (map fst after) ->
  SetupEdit.deleteRole role (before ++ (role, old) :: after) = before ++ after.
Proof.
  intros Hb Ha. unfold SetupEdit.deleteRole.
  rewrite List.filter_app. simpl. rewrite String.eqb_refl. simpl.
  destruct (replace_absent role old before Hb) as (_ & _ & ->).
  destruct (replace_absent role old after Ha) as (_ & _ & ->).
  reflexivity.
Qed.

Lemma memberIds_app l1 l2 : memberIds (l1 ++ l2) = memberIds l1 ++ memberIds l2.
Proof. unfold memberIds. apply flat_map_app. Qed.

Lemma NoDup_replace_middle {A} (a old new c : list A) :
  List.NoDup (a ++ old ++ c) ->
  List.NoDup new ->
  (forall x, In x new -> In x old \/ ~ In x (a ++ old ++ c)) ->
  List.NoDup (a ++ new ++ c).
Proof.
  intros Hnd Hnew Hin.
  apply (Permutation_NoDup (l := new ++ a ++ c)).
  { rewrite app_assoc. rewrite (Permutation_app_comm new a).
    now rewrite <- app_assoc. }
  apply (Permutation_NoDup (l' := old ++ a ++ c)) in Hnd.
  2:{ rewrite app_assoc. rewrite (Permutation_app_comm a old).
      now rewrite <- app_assoc. }
  apply List.NoDup_app; [exact Hnew| now apply List.NoDup_app_remove_l in Hnd |].
  intros x Hx Hac. destruct (Hin x Hx) as [Hold|Hfresh].
  - apply List.NoDup_app_remove_r in Hnd as Hold'.
    assert (Hdisj : forall y, In y old -> ~ In y (a ++ c)).
    { clear -Hnd. induction old as [|o old IH]; simpl; [intros y []|].
      inversion Hnd as [|? ? Hnot Hrest]; subst. intros y [<-|Hy].
      - intros Hc. apply Hnot. rewrite in_app_iff. now right.
      - now apply IH. }
    exact (Hdisj x Hold Hac).
  - apply Hfresh. rewrite !in_app_iff in *. tauto.
Qed.

Lemma memberIds_middle before role members after :
  memberIds (before ++ (role, members) :: after)
  = memberIds before ++ map SetupScreen.member_id members ++ memberIds after.
Proof. rewrite memberIds_app. reflexivity. Qed.

Lemma keys_middle (before : list (string * list SetupScreen.Member)) role m1 m2 after :
  map fst (before ++ (role, m1) :: after) = map fst (before ++ (role, m2) :: after).
Proof. now rewrite !map_app. Qed.

Lemma NoDup_middle_part {A} (a b c : list A) : List.NoDup (a ++ b ++ c) -> List.NoDup b.
Proof.
  intros H. apply List.NoDup_app_remove_l in H. now apply List.NoDup_app_remove_r in H.
Qed.

Lemma staffList_ids entries :
  map StaffMember.id (SetupScreen.staffList entries) = memberIds entries.
Proof.
  unfold SetupScreen.staffList, memberIds.
  induction entries as [|e entries IH]; simpl; [reflexivity|].
  rewrite map_app, IH, map_map. reflexivity.
Qed.

(** X24. The operations of the setup screen on staff keep the member ids
    pairwise distinct (and the roles one entry each): adding a member
    under an id not yet in use, renaming a member, and removing a member,
    which deletes a role left without members.  The ids of the staff list
    that [handleSubmit] builds are the member ids of the form, in order,
    so a form with distinct ids yields a staff list with distinct ids. *)
Theorem staff_edits_keep_ids_distinct entries :
  distinctStaff entries ->
  (forall uuid role, ~ In uuid (memberIds entries) ->
     distinctStaff (SetupEdit.addStaffMember uuid role entries))
  /\ (forall role id name entries',
        SetupEdit.updateStaffMemberName role id name entries = Some entries' ->
        distinctStaff entries' /\ memberIds entries' = memberIds entries)
  /\ (forall role id entries',
        SetupEdit.removeStaffMember role id entries = Some entries' ->
        distinctStaff entries' /\
        (forall x, In x (memberIds entries') -> In x (memberIds entries)))
  /\ List.NoDup (map StaffMember.id (SetupScreen.staffList entries)).
Proof.
  intros [Hkeys Hids]. split; [|split; [|split]].
  - intros uuid role Hfresh. unfold SetupEdit.addStaffMember.
    destruct (SetupEdit.lookupRole role entries) as [old|] eqn:Hl.
    + destruct (lookupRole_split _ _ _ Hkeys Hl) as (before & after & -> & Hb & Ha).
      cbn [default]. rewrite (setRole_present _ _ _ _ _ Hb Ha). split.
      * now rewrite (keys_middle before role _ old after).
      * rewrite memberIds_middle in *. rewrite map_app. cbn [map].
        apply (NoDup_replace_middle _ (map SetupScreen.member_id old)); [exact Hids| |].
        -- apply NoDup_snoc; [now apply NoDup_middle_part in Hids|].
           intros Hin. apply Hfresh. rewrite !in_app_iff. tauto.
        -- intros x Hx. apply in_app_iff in Hx as [Hx|[<-|[]]]; [now left|now right].
    + apply lookupRole_none in Hl as Hex. unfold SetupEdit.setRole. rewrite Hex.
      cbn [default app]. split.
      * rewrite map_app. cbn [map fst]. apply NoDup_snoc; [exact Hkeys|].
        intros Hin. apply in_map_iff in Hin as (e & He & Hin).
        assert (existsb (fun entry => fst entry =? role) entries = true).
        { apply existsb_exists. exists e. split; [exact Hin|]. now apply eqb_string_eq. }
        congruence.
      * rewrite memberIds_app. unfold memberIds at 2. cbn [flat_map map snd].
        rewrite app_nil_r. now apply NoDup_snoc.
  - intros role id name entries' Hup. unfold SetupEdit.updateStaffMemberName in Hup.
    destruct (SetupEdit.lookupRole role entries) as [old|] eqn:Hl; [|discriminate].
    cbn [mbind option_bind] in Hup. injection Hup as <-.
    destruct (lookupRole_split _ _ _ Hkeys Hl) as (before & after & -> & Hb & Ha).
    rewrite (setRole_present _ _ _ _ _ Hb Ha).
    assert (Hsame : memberIds
                      (before ++ (role,
                         map (fun m =>
                                if SetupScreen.member_id m =? id
                                then {| SetupScreen.member_id := SetupScreen.member_id m;
                                        SetupScreen.member_name := name |}
                                else m) old) :: after)
                    = memberIds (before ++ (role, old) :: after)).
    { rewrite !memberIds_middle. f_equal. f_equal.
      apply map_id_preserved. intros m.
      now destruct (SetupScreen.member_id m =? id). }
    split; [split|exact Hsame].
    + now rewrite (keys_middle before role _ old after).
    + now rewrite Hsame.
  - intros role id entries' Hrm. unfold SetupEdit.removeStaffMember in Hrm.
    destruct (SetupEdit.lookupRole role entries) as [old|] eqn:Hl; [|discriminate].
    cbn [mbind option_bind] in Hrm.
    destruct (lookupRole_split _ _ _ Hkeys Hl) as (before & after & -> & Hb & Ha).
    rewrite memberIds_middle in Hids.
    set (kept := List.filter (fun m => negb (SetupScreen.member_id m =? id)) old) in *.
    assert (Hkept : forall x, In x (map SetupScreen.member_id kept) ->
                              In x (map SetupScreen.member_id old)).
    { intros x Hx. apply in_map_iff in Hx as (m & <- & Hm).
      apply List.filter_In in Hm as [Hm _]. now apply in_map. }
    assert (Hmid : forall new,
               List.NoDup new ->
               (forall x, In x new -> In x (map SetupScreen.member_id old)) ->
               List.NoDup (memberIds before ++ new ++ memberIds after)).
    { intros new Hnew Hsub.
      apply (NoDup_replace_middle _ (map SetupScreen.member_id old)); [exact Hids|exact Hnew|].
      intros x Hx. left. now apply Hsub. }
    destruct (length kept =? 0)%nat; injection Hrm as <-.
    + rewrite (deleteRole_present _ _ _ _ Hb Ha). split; [split|].
      * rewrite map_app in *. cbn [map fst] in Hkeys.
        now apply List.NoDup_remove_1 in Hkeys.
      * rewrite memberIds_app. apply (Hmid []); [constructor|intros x []].
      * intros x. rewrite memberIds_app, memberIds_middle, !in_app_iff. tauto.
    + rewrite (setRole_present _ _ _ _ _ Hb Ha). split; [split|].
      * now rewrite (keys_middle before role _ old after).
      * rewrite memberIds_middle. apply Hmid; [|exact Hkept].
        apply NoDup_map_filter. now apply NoDup_middle_part in Hids.
      * intros x. rewrite !memberIds_middle, !in_app_iff.
        intros [H|[H|H]]; [tauto|right; left; now apply Hkept|tauto].
  - now rewrite staffList_ids.
Qed.

Lemma staff_edits_keep_ids_distinct_witness :
  let entries :=
    [("General Doctor", [ {| SetupScreen.member_id := "d1";
                             SetupScreen.member_name := "Dr. House" |} ])] in
  distinctStaff entries
  /\ ~ In "n1" (memberIds entries)
  /\ distinctStaff (SetupEdit.addStaffMember "n1" "Nurse" entries)
  /\ SetupEdit.removeStaffMember "General Doctor" "d1"
       (SetupEdit.addStaffMember "n1" "Nurse" entries)
     = Some [("Nurse", [ {| SetupScreen.member_id := "n1";
                            SetupScreen.member_name := EmptyString |} ])].
Proof.
  intros entries.
  assert (H1 : distinctStaff entries).
  { split; simpl; repeat constructor; simpl; intuition discriminate. }
  assert (H2 : ~ In "n1" (memberIds entries)).
  { simpl. intuition discriminate. }
  split; [exact H1|]. split; [exact H2|]. split.
  - exact (proj1 (staff_edits_keep_ids_distinct entries H1) "n1" "Nurse" H2).
  - reflexivity.
Defined.

(** * Configuration shared between tabs *)

Lemma mapM_read_encoded {A} (read : Json -> option A) (encode : A -> Json) (l : list A) :
  (forall x, read (encode x) = Some x) ->
  mapM read (map encode l) = Some l.
Proof.
  intros H. induction l as [|x l IH]; [reflexivity|].
  cbn [map mapM]. rewrite H. cbn [mbind option_bind]. rewrite IH. reflexivity.
Qed.

Lemma readEquipment_encoded e :
  Config_read.readEquipment (Config_json.encodeEquipment e) = Some e.
Proof. now destruct e. Qed.

Lemma readSection_encoded s :
  Config_read.readSection (Config_json.encodeSection s) = Some s.
Proof.
  destruct s as [id name capacity equipment].
  unfold Config_json.encodeSection, Config_read.readSection.
  cbn [Section.id Section.name Section.capacity Section.equipment
       String.eqb Ascii.eqb Bool.eqb andb].
  rewrite (mapM_read_encoded _ _ _ readEquipment_encoded). reflexivity.
Qed.

Lemma readStaff_encoded s :
  Config_read.readStaff (Config_json.encodeStaff s) = Some s.
Proof. now destruct s. Qed.

(** X25. A configuration saved in one tab arrives in another.  When the
    effect of a tab that is past the setup screen has saved its
    configuration and a second tab receives the storage event of that
    write, the second tab takes over exactly the sections and the staff
    of the first, keeps its own admitted and discharged patients, writes
    nothing to the store, and tells the user.  An event for another key,
    or without a value, changes nothing. *)
Theorem saved_configuration_arrives sender receiver :
  (appState sender <> setup ->
   syncState "hospital_config"
     (localStorage (persistConfig true sender) !! "hospital_config") receiver
   = Some (toast toast_info "Hospital configuration updated automatically."
             (setStaff (staff sender) (setSections (sections sender) receiver))))
  /\
  (forall key newValue,
      key <> "hospital_config" \/ newValue = None ->
      syncState key newValue receiver = Some receiver).
Proof.
  split.
  - intros Hview.
    assert (Hsaved : localStorage (persistConfig true sender) !! "hospital_config"
                     = Some (Stringified
                               (Config_json.encode (sections sender) (staff sender)))).
    { unfold persistConfig.
      destruct (appState sender); [contradiction| | |]; apply lookup_insert_eq. }
    rewrite Hsaved. unfold syncState.
    cbn [String.eqb Ascii.eqb Bool.eqb andb present mbind option_bind JSON_parse].
    change (getProp "sections" (Config_json.encode (sections sender) (staff sender)))
      with (@inr unit _ (Some (JArray (map Config_json.encodeSection (sections sender))))).
    change (getProp "staff" (Config_json.encode (sections sender) (staff sender)))
      with (@inr unit _ (Some (JArray (map Config_json.encodeStaff (staff sender))))).
    cbn [Config_read.readArray].
    rewrite (mapM_read_encoded _ _ _ readSection_encoded).
    rewrite (mapM_read_encoded _ _ _ readStaff_encoded).
    reflexivity.
  - intros key newValue [Hkey| ->]; unfold syncState.
    + apply eqb_string_neq in Hkey. now rewrite Hkey.
    + now rewrite andb_false_r.
Qed.

Lemma saved_configuration_arrives_witness :
  appState Demo.hospital <> setup
  /\ (sections <$> syncState "hospital_config"
        (localStorage (persistConfig true Demo.hospital) !! "hospital_config")
        Demo.crowded) = Some [Demo.ward]
  /\ (admittedPatients <$> syncState "hospital_config"
        (localStorage (persistConfig true Demo.hospital) !! "hospital_config")
        Demo.crowded) = Some (admittedPatients Demo.crowded).
Proof.
  assert (H : appState Demo.hospital <> setup) by discriminate.
  split; [exact H|].
  rewrite (proj1 (saved_configuration_arrives Demo.hospital Demo.crowded) H).
  split; reflexivity.
Defined.
